(** * Chemical Equipment Visualizer: ingestion, statistics, retention, report data

    A shallow embedding of the two Django back ends of the repository,

    - [backend/chemical_equipment/equipment/views.py]  ([DatasetViewSet]), and
    - [backend/equipment_api/api/views.py], [models.py]  (function views),

    together with the small part of pandas they call.  Numbers are IEEE
    binary64 values, taken from the specification of floating-point
    arithmetic of the standard library ([SpecFloat], precision 53, [emax]
    1024), so that every definition evaluates on concrete inputs.

    The file has two parts: the definitions (modules [Float64], [Exec],
    [Pandas], [Orm], [ChemicalEquipment], [EquipmentApi], [Spec],
    [Examples], and the notions used in the statements) and then the lemmas
    and theorems about them. *)

From Stdlib Require Import ZArith List String Ascii Bool Arith Lia.
From Stdlib Require Import Sorting.Sorted Sorting.Permutation.
From Stdlib Require Import Floats.SpecFloat.
Import ListNotations.

(* ===================================================================== *)
(** * Part I: definitions *)
(* ===================================================================== *)

(** ** Binary64 numbers (Python [float], numpy [float64]) *)

Module Float64.

Definition prec : Z := 53.
Definition emax : Z := 1024.

Definition float64 : Type := spec_float.

Definition zero : float64 := S754_zero false.
Definition nan : float64 := S754_nan.

Definition add : float64 -> float64 -> float64 := SFadd prec emax.
Definition div : float64 -> float64 -> float64 := SFdiv prec emax.

(** Conversion of an integer (exact below [2^53], rounded above). *)
Definition of_Z (n : Z) : float64 := binary_normalize prec emax n 0 false.
Definition of_nat (n : nat) : float64 := of_Z (Z.of_nat n).

Definition ltb : float64 -> float64 -> bool := SFltb.
Definition leb : float64 -> float64 -> bool := SFleb.
Definition eqb : float64 -> float64 -> bool := SFeqb.

Definition is_nan (x : float64) : bool :=
  match x with S754_nan => true | _ => false end.

Definition is_finite (x : float64) : bool :=
  match x with S754_zero _ | S754_finite _ _ _ => true | _ => false end.

(** The value of the decimal literal [n / 10^k], correctly rounded: both
    operands are exact and the division rounds once (for [|n| < 2^53] and
    [k <= 22]).  [decimal 1 1] is the double written [0.1]. *)
Definition decimal (n : Z) (k : nat) : float64 :=
  div (of_Z n) (of_Z (10 ^ Z.of_nat k)).

(** Well-formed binary64 values: the mantissa of a finite number is in
    canonical position. *)
Definition valid (x : float64) : bool := valid_binary prec emax x.

(** The exact value of a finite number, as an integer multiple of the
    smallest subnormal [2^-1074]; [0] for the other values. *)
Definition scaled (x : float64) : Z :=
  match x with
  | S754_finite s m e =>
      (if s then -1 else 1) * (Z.pos m * 2 ^ (e + 1074))
  | _ => 0
  end.

Definition float64_eq_dec (x y : float64) : {x = y} + {x <> y}.
Proof.
  decide equality; try apply Bool.bool_dec;
    try apply Z.eq_dec; apply Pos.eq_dec.
Defined.

End Float64.

(** ** Exceptions and results *)

Module Exec.

(** The Python exceptions the views can meet; each carries its message. *)
Inductive exn : Type :=
| ParserError (msg : string)
| TypeError (msg : string)
| ValueError (msg : string).

(** [str(e)] *)
Definition str (e : exn) : string :=
  match e with
  | ParserError msg | TypeError msg | ValueError msg => msg
  end.

Inductive result (A : Type) : Type :=
| Ok (a : A)
| Raise (e : exn).
Arguments Ok {A} a.
Arguments Raise {A} e.

Definition rbind {A B} (r : result A) (k : A -> result B) : result B :=
  match r with
  | Ok a => k a
  | Raise e => Raise e
  end.

Fixpoint rmap {A B} (f : A -> result B) (l : list A) : result (list B) :=
  match l with
  | [] => Ok []
  | a :: l' =>
      rbind (f a) (fun b => rbind (rmap f l') (fun bs => Ok (b :: bs)))
  end.

(** Code that reads and writes a store of type [S] and may raise: the
    store is threaded through, and what was written before an exception
    stays written (no transaction wraps the views). *)
Section StoreMonad.
Variable S : Type.

Definition M (A : Type) : Type := S -> result A * S.

Definition ret {A} (a : A) : M A := fun s => (Ok a, s).

Definition bind {A B} (m : M A) (k : A -> M B) : M B :=
  fun s =>
    match m s with
    | (Ok a, s') => k a s'
    | (Raise e, s') => (Raise e, s')
    end.

Definition lift {A} (r : result A) : M A := fun s => (r, s).

Definition gets {A} (f : S -> A) : M A := fun s => (Ok (f s), s).

Definition modify (f : S -> S) : M unit := fun s => (Ok tt, f s).

(** [try: body except Exception as e: handler(e)] *)
Definition try_except {A} (body : M A) (handler : exn -> M A) : M A :=
  fun s =>
    match body s with
    | (Ok a, s') => (Ok a, s')
    | (Raise e, s') => handler e s'
    end.

(** [for x in l: body(x)] *)
Fixpoint for_each {A} (l : list A) (body : A -> M unit) : M unit :=
  match l with
  | [] => ret tt
  | x :: l' => bind (body x) (fun _ => for_each l' body)
  end.
End StoreMonad.

Arguments ret {S A} a.
Arguments bind {S A B} m k.
Arguments lift {S A} r.
Arguments gets {S A} f.
Arguments modify {S} f.
Arguments try_except {S A} body handler.
Arguments for_each {S A} l body.

End Exec.

Declare Scope exec_scope.
Delimit Scope exec_scope with exec.
Notation "x <- m ;; k" := (Exec.bind m (fun x => k))
(at level 61, m at next level, right associativity) : exec_scope.
Notation "m ;;; k" := (Exec.bind m (fun _ => k))
(at level 61, right associativity) : exec_scope.
Notation "x <-- r ;; k" := (Exec.rbind r (fun x => k))
(at level 61, r at next level, right associativity) : exec_scope.

(** ** The part of pandas the views use *)

Module Pandas.
Import Float64 Exec.

(** A cell of a data frame read by [pd.read_csv]: a missing value (an
    empty field or one of the NA tokens), a number, or a string.  A number
    is held as the binary64 value the statistics compute with (an integer
    column is converted to it before it is summed). *)
Inductive cell : Type :=
| NA
| Num (x : float64)
| Str (s : string).

Definition cell_eq_dec (a b : cell) : {a = b} + {a <> b}.
Proof.
  decide equality; [apply float64_eq_dec | apply string_dec].
Defined.

(** [pd.isna] *)
Definition isna (c : cell) : bool :=
  match c with
  | NA => true
  | Num x => is_nan x
  | Str _ => false
  end.

Definition Series : Type := list cell.

(** A data frame, row by row; a row holds one cell per column, and a row
    shorter than the header reads as missing there, as [read_csv] pads
    it. *)
Record DataFrame : Type := mkDataFrame {
  columns : list string;
  data : list (list cell)
}.

(** [col in df.columns] *)
Definition has_column (df : DataFrame) (col : string) : bool :=
  existsb (String.eqb col) (columns df).

Fixpoint position (col : string) (cols : list string) : nat :=
  match cols with
  | [] => 0
  | c :: cols' => if String.eqb col c then 0 else S (position col cols')
  end.

(** [row[col]] for a row of the frame [df] *)
Definition row_get (df : DataFrame) (row : list cell) (col : string) : cell :=
  nth (position col (columns df)) row NA.

(** [df[col]] *)
Definition getitem (df : DataFrame) (col : string) : Series :=
  map (fun row => row_get df row col) (data df).

(** [len(df)] *)
Definition len (df : DataFrame) : nat := List.length (data df).

(** [df.dropna(subset=subset)]: keep the rows with no missing value in
    the columns of [subset]. *)
Definition row_complete (df : DataFrame) (subset : list string)
    (row : list cell) : bool :=
  forallb (fun col => negb (isna (row_get df row col))) subset.

Definition dropna (subset : list string) (df : DataFrame) : DataFrame :=
  mkDataFrame (columns df) (filter (row_complete df subset) (data df)).

(** The numbers of a column with the missing values skipped
    ([skipna=True]); [None] when the column holds a string, that is when
    its dtype is [object] and not numeric. *)
Fixpoint numeric_values (s : Series) : option (list float64) :=
  match s with
  | [] => Some []
  | c :: s' =>
      match c, numeric_values s' with
      | Str _, _ => None
      | _, None => None
      | NA, Some xs => Some xs
      | Num x, Some xs => Some (if is_nan x then xs else x :: xs)
      end
  end.

(** Left-to-right binary64 accumulation.  (numpy adds long columns in
    blocks; the association differs then, the value only by rounding.) *)
Definition fsum (xs : list float64) : float64 :=
  match xs with
  | [] => zero
  | x :: xs' => fold_left add xs' x
  end.

(** Linear scans; on a tie the value seen first is kept. *)
Definition fmin (xs : list float64) : float64 :=
  match xs with
  | [] => nan
  | x :: xs' => fold_left (fun acc y => if ltb y acc then y else acc) xs' x
  end.

Definition fmax (xs : list float64) : float64 :=
  match xs with
  | [] => nan
  | x :: xs' => fold_left (fun acc y => if ltb acc y then y else acc) xs' x
  end.

Definition not_numeric : exn :=
  TypeError "Could not convert string to numeric".

(** Sum over count; [nan] when there is no value. *)
Definition average (xs : list float64) : float64 :=
  match xs with
  | [] => nan
  | _ :: _ => div (fsum xs) (of_nat (List.length xs))
  end.

(** [s.mean()]: the average of the values present; [TypeError] on a
    column of strings. *)
Definition mean (s : Series) : result float64 :=
  match numeric_values s with
  | None => Raise not_numeric
  | Some xs => Ok (average xs)
  end.

(** [s.min()], [s.max()] on a numeric column.  (The views ask for them
    after the mean of the same column, which has raised already when the
    column holds strings.) *)
Definition min (s : Series) : result float64 :=
  match numeric_values s with
  | None => Raise not_numeric
  | Some xs => Ok (fmin xs)
  end.

Definition max (s : Series) : result float64 :=
  match numeric_values s with
  | None => Raise not_numeric
  | Some xs => Ok (fmax xs)
  end.

(** [s.value_counts().to_dict()]: the values present are counted, in the
    order in which they are first met, and the counts are then sorted,
    largest first.  The dictionary keeps that order.  Equal counts stay
    in order of first appearance here; pandas does not promise an order
    between them, and no theorem below depends on it. *)
Fixpoint incr (k : cell) (acc : list (cell * nat)) : list (cell * nat) :=
  match acc with
  | [] => [(k, 1)]
  | (k', n) :: acc' =>
      if cell_eq_dec k k' then (k', S n) :: acc'
      else (k', n) :: incr k acc'
  end.

Definition count_values (s : Series) : list (cell * nat) :=
  fold_left (fun acc c => if isna c then acc else incr c acc) s [].

Fixpoint insert_by_count (p : cell * nat) (l : list (cell * nat))
    : list (cell * nat) :=
  match l with
  | [] => [p]
  | q :: l' =>
      if (snd q <=? snd p)%nat then p :: q :: l'
      else q :: insert_by_count p l'
  end.

Definition sort_by_count (l : list (cell * nat)) : list (cell * nat) :=
  fold_right insert_by_count [] l.

Definition value_counts (s : Series) : list (cell * nat) :=
  sort_by_count (count_values s).

(** An uploaded file: its name, and what [pd.read_csv] makes of its
    bytes, a data frame or the exception of the tokenizer. *)
Record UploadedFile : Type := mkFile {
  name : string;
  content : result DataFrame
}.

Definition read_csv (f : UploadedFile) : result DataFrame := content f.

(** [float(c)] for a cell taken from a row *)
Definition to_float (c : cell) : result float64 :=
  match c with
  | NA => Ok nan
  | Num x => Ok x
  | Str _ => Raise (ValueError "could not convert string to float")
  end.

(** [s.endswith(suffix)] *)
Definition endswith (s suffix : string) : bool :=
  let n := String.length s in
  let k := String.length suffix in
  (k <=? n)%nat && String.eqb (substring (n - k) k s) suffix.

End Pandas.

(** ** The part of the Django ORM the views use *)

Module Orm.

(** A query set ordered by [-uploaded_at]: newest first.  The sort is a
    stable insertion sort over the rows in storage order; the database
    leaves the order between equal timestamps open. *)
Section Ordering.
Variable A : Type.
Variable key : A -> Z.

Fixpoint insert_newest (x : A) (l : list A) : list A :=
  match l with
  | [] => [x]
  | y :: l' =>
      if (key y <=? key x)%Z then x :: y :: l'
      else y :: insert_newest x l'
  end.

Definition order_by_newest (l : list A) : list A :=
  fold_right insert_newest [] l.
End Ordering.

Arguments insert_newest {A} key x l.
Arguments order_by_newest {A} key l.

(** [qs[:n]] and [qs[n:]] are [firstn n] and [skipn n]. *)

End Orm.

(** ** [backend/chemical_equipment/equipment/views.py] *)

Module ChemicalEquipment.
Import Float64 Exec Pandas Orm.
Local Open Scope exec_scope.
Local Open Scope string_scope.

(** The dictionary [summary] built by [upload]. *)
Record Summary : Type := mkSummary {
  total_count : nat;
  avg_flowrate : float64;
  avg_pressure : float64;
  avg_temperature : float64;
  type_distribution : list (cell * nat);
  min_flowrate : float64;
  max_flowrate : float64;
  min_pressure : float64;
  max_pressure : float64;
  min_temperature : float64;
  max_temperature : float64
}.

(** Modelled from the spec: [equipment/models.py] is not among the
    sources.  A Dataset has the fields the view reads and writes ([id],
    [user], [filename], [uploaded_at], [total_records], the summary set by
    [set_summary_data]), an Equipment row belongs to one Dataset and goes
    with it when the Dataset is deleted, and the default order of Datasets
    is by creation time, newest first, the later insertion first among
    equal times. *)
Record Dataset : Type := mkDataset {
  id : Z;
  user : option string;
  filename : string;
  uploaded_at : Z;
  total_records : nat;
  summary_data : option Summary
}.

Record Equipment : Type := mkEquipment {
  dataset_id : Z;
  equipment_name : cell;
  equipment_type : cell;
  flowrate : float64;
  pressure : float64;
  temperature : float64
}.

(** The two tables and the next primary key. *)
Record DB : Type := mkDB {
  datasets : list Dataset;
  equipment_records : list Equipment;
  next_id : Z
}.

Definition empty_db : DB := mkDB [] [] 1.

Record Request : Type := mkRequest {
  FILES_file : option UploadedFile;      (* request.FILES.get('file') *)
  request_user : option string           (* the user when authenticated *)
}.

Inductive Body : Type :=
| Error (msg : string)
| DatasetData (d : Dataset)
| DatasetList (l : list Dataset).

Record Response : Type := mkResponse {
  status : nat;
  body : Body
}.

Definition HTTP_200_OK : nat := 200.
Definition HTTP_201_CREATED : nat := 201.
Definition HTTP_400_BAD_REQUEST : nat := 400.

Definition required_columns : list string :=
  ["Equipment Name"; "Type"; "Flowrate"; "Pressure"; "Temperature"].

(** [Dataset.objects.all()] *)
Definition Dataset_objects_all (db : DB) : list Dataset :=
  order_by_newest uploaded_at (rev (datasets db)).

(** [Dataset.objects.create(user=..., filename=..., total_records=...)]:
    the row is written at once, with the time of the call and no
    summary. *)
Definition Dataset_objects_create (now : Z) (u : option string)
    (fname : string) (n : nat) : M DB Dataset :=
  fun db =>
    let d := mkDataset (next_id db) u fname now n None in
    (Ok d, mkDB (datasets db ++ [d]) (equipment_records db) (next_id db + 1)).

(** [dataset.set_summary_data(summary)] *)
Definition set_summary_data (d : Dataset) (s : Summary) : Dataset :=
  mkDataset (id d) (user d) (filename d) (uploaded_at d) (total_records d)
            (Some s).

(** [dataset.save()] *)
Definition Dataset_save (d : Dataset) : M DB unit :=
  modify (fun db =>
    mkDB (map (fun d' => if (id d' =? id d)%Z then d else d') (datasets db))
         (equipment_records db) (next_id db)).

(** [Equipment.objects.bulk_create(equipment_list)] *)
Definition Equipment_objects_bulk_create (l : list Equipment) : M DB unit :=
  modify (fun db =>
    mkDB (datasets db) (equipment_records db ++ l) (next_id db)).

(** [old_dataset.delete()] *)
Definition Dataset_delete (d : Dataset) : M DB unit :=
  modify (fun db =>
    mkDB (filter (fun d' => negb (id d' =? id d)%Z) (datasets db))
         (filter (fun e => negb (dataset_id e =? id d)%Z)
                 (equipment_records db))
         (next_id db)).

(** Lines 83 to 96 of [upload]: the summary of the cleaned frame.  The
    entries are evaluated in the order of the dictionary display. *)
Definition summarize (df_clean : DataFrame) : result Summary :=
  avg_f <-- mean (getitem df_clean "Flowrate") ;;
  avg_p <-- mean (getitem df_clean "Pressure") ;;
  avg_t <-- mean (getitem df_clean "Temperature") ;;
  let dist := value_counts (getitem df_clean "Type") in
  min_f <-- min (getitem df_clean "Flowrate") ;;
  max_f <-- max (getitem df_clean "Flowrate") ;;
  min_p <-- min (getitem df_clean "Pressure") ;;
  max_p <-- max (getitem df_clean "Pressure") ;;
  min_t <-- min (getitem df_clean "Temperature") ;;
  max_t <-- max (getitem df_clean "Temperature") ;;
  Ok (mkSummary (len df_clean) avg_f avg_p avg_t dist
                min_f max_f min_p max_p min_t max_t).

(** Lines 101 to 111: one Equipment per cleaned row. *)
Definition equipment_of_row (df : DataFrame) (dataset : Dataset)
    (row : list cell) : result Equipment :=
  f <-- to_float (row_get df row "Flowrate") ;;
  p <-- to_float (row_get df row "Pressure") ;;
  t <-- to_float (row_get df row "Temperature") ;;
  Ok (mkEquipment (id dataset)
                  (row_get df row "Equipment Name")
                  (row_get df row "Type") f p t).

Definition missing_columns (df : DataFrame) : list string :=
  filter (fun col => negb (has_column df col)) required_columns.

(** [DatasetViewSet.upload]; [now] is the reading of the clock when the
    Dataset row is created. *)
Definition upload (now : Z) (request : Request) : M DB Response :=
  match FILES_file request with
  | None =>
      ret (mkResponse HTTP_400_BAD_REQUEST (Error "No file provided"))
  | Some csv_file =>
      if negb (endswith (name csv_file) ".csv") then
        ret (mkResponse HTTP_400_BAD_REQUEST
                        (Error "File must be CSV format"))
      else
        try_except
          (df <- lift (read_csv csv_file) ;;
           match missing_columns df with
           | (_ :: _) as missing =>
               ret (mkResponse HTTP_400_BAD_REQUEST
                      (Error ("Missing required columns: "
                              ++ String.concat ", " missing)))
           | [] =>
               let df_clean := dropna required_columns df in
               if (len df_clean =? 0)%nat then
                 ret (mkResponse HTTP_400_BAD_REQUEST
                                 (Error "No valid data found in CSV"))
               else
                 dataset <- Dataset_objects_create now
                              (request_user request) (name csv_file)
                              (len df_clean) ;;
                 summary <- lift (summarize df_clean) ;;
                 let dataset := set_summary_data dataset summary in
                 Dataset_save dataset ;;;
                 equipment_list <-
                   lift (rmap (equipment_of_row df_clean dataset)
                              (data df_clean)) ;;
                 Equipment_objects_bulk_create equipment_list ;;;
                 old_datasets <- gets (fun db =>
                                    skipn 5 (Dataset_objects_all db)) ;;
                 for_each old_datasets Dataset_delete ;;;
                 ret (mkResponse HTTP_201_CREATED (DatasetData dataset))
           end)
          (fun e =>
             ret (mkResponse HTTP_400_BAD_REQUEST
                    (Error ("Error processing CSV: " ++ str e))))
  end.

(** [DatasetViewSet.list]: the last five datasets. *)
Definition list_datasets (db : DB) : Response :=
  mkResponse HTTP_200_OK (DatasetList (firstn 5 (Dataset_objects_all db))).

(** What [generate_pdf] hands to the table and chart renderers.  The
    layout, the colours and the formatting of numbers to two decimals
    belong to the renderers and are left out. *)
Record Charts : Type := mkCharts {
  types : list cell;                  (* list(type_dist.keys()) *)
  counts : list nat;                  (* list(type_dist.values()) *)
  parameters : list string;
  min_vals : list float64;
  avg_vals : list float64;
  max_vals : list float64
}.

Record Report : Type := mkReport {
  info_data : string * Z * nat;
  stats_data : list (string * float64 * float64 * float64);
  charts : option Charts;
  eq_data : list Equipment
}.

(** [summary.get(key, 0)] for a numeric entry *)
Definition summary_get (d : Dataset) (f : Summary -> float64) : float64 :=
  match summary_data d with
  | Some s => f s
  | None => zero
  end.

(** [summary.get('type_distribution', {})] *)
Definition type_dist (d : Dataset) : list (cell * nat) :=
  match summary_data d with
  | Some s => type_distribution s
  | None => []
  end.

(** The body of [generate_pdf] for the Dataset found: the information
    card, the statistics table in the fixed order Flowrate, Pressure,
    Temperature, the chart series when the distribution is not empty, and
    the first twenty Equipment rows. *)
Definition report_of (db : DB) (dataset : Dataset) : Report :=
  let g := summary_get dataset in
  mkReport
    (filename dataset, uploaded_at dataset, total_records dataset)
    [ ("Flowrate", g min_flowrate, g avg_flowrate, g max_flowrate);
      ("Pressure", g min_pressure, g avg_pressure, g max_pressure);
      ("Temperature", g min_temperature, g avg_temperature,
       g max_temperature) ]
    (match type_dist dataset with
     | [] => None
     | (_ :: _) as td =>
         Some (mkCharts (map fst td) (map snd td)
                 ["Flowrate"; "Pressure"; "Temperature"]
                 [g min_flowrate; g min_pressure; g min_temperature]
                 [g avg_flowrate; g avg_pressure; g avg_temperature]
                 [g max_flowrate; g max_pressure; g max_temperature])
     end)
    (firstn 20 (filter (fun e => (dataset_id e =? id dataset)%Z)
                       (equipment_records db))).

(** [DatasetViewSet.generate_pdf]: [None] when [get_object] finds no
    Dataset with primary key [pk] (a 404). *)
Definition generate_pdf (pk : Z) (db : DB) : option Report :=
  match find (fun d => (id d =? pk)%Z) (datasets db) with
  | Some dataset => Some (report_of db dataset)
  | None => None
  end.

(** A view called by the framework: an exception that leaves the view
    becomes a response with status 500. *)
Definition call (view : M DB Response) (db : DB) : Response * DB :=
  match view db with
  | (Ok resp, db') => (resp, db')
  | (Raise e, db') => (mkResponse 500 (Error (str e)), db')
  end.

(** The type series of a report: the labels paired with their counts. *)
Definition typeSeries (r : Report) : list (cell * nat) :=
  match charts r with
  | Some c => combine (types c) (counts c)
  | None => []
  end.

End ChemicalEquipment.

(** ** [backend/equipment_api/api/views.py] and [models.py] *)

Module EquipmentApi.
Import Float64 Exec Pandas Orm.
Local Open Scope exec_scope.
Local Open Scope string_scope.

(** [models.Dataset]; [Meta.ordering = ['-uploaded_at']].  The stored
    file is kept by the blob storage, which is not modelled: the field
    holds the name it was uploaded under. *)
Record Dataset : Type := mkDataset {
  id : Z;
  user : string;
  filename : string;
  uploaded_at : Z;                       (* auto_now_add *)
  file : string;
  total_count : nat;
  avg_flowrate : float64;
  avg_pressure : float64;
  avg_temperature : float64;
  equipment_types : list (cell * nat)
}.

(** The table in storage order and the next primary key. *)
Record DB : Type := mkDB {
  datasets : list Dataset;
  next_id : Z
}.

Definition empty_db : DB := mkDB [] 1.

Record Request : Type := mkRequest {
  FILES_file : option UploadedFile;
  request_user : string
}.

(** The bodies of the responses.  The averages of the upload response
    are the stored ones rounded to two decimals for display, and are
    left out. *)
Inductive Body : Type :=
| Error (msg : string)
| Uploaded (dataset_id : Z) (total : nat) (types : list (cell * nat))
           (records : list (list cell))
| History (l : list Dataset)
| Pdf (d : Dataset).

Record Response : Type := mkResponse {
  status : nat;
  body : Body
}.

Definition HTTP_200_OK : nat := 200.
Definition HTTP_400_BAD_REQUEST : nat := 400.
Definition HTTP_404_NOT_FOUND : nat := 404.

Definition MAX_HISTORY : nat := 5.

Definition required_cols : list string :=
  ["Equipment Name"; "Type"; "Flowrate"; "Pressure"; "Temperature"].

(** [Dataset.objects.filter(user=u)], in the order of [Meta.ordering]. *)
Definition Dataset_objects_filter (u : string) (db : DB) : list Dataset :=
  order_by_newest uploaded_at
    (filter (fun d => String.eqb (user d) u) (datasets db)).

(** [Dataset.objects.create(...)] *)
Definition Dataset_objects_create (now : Z) (u fname : string) (n : nat)
    (avg_f avg_p avg_t : float64) (types : list (cell * nat))
    : M DB Dataset :=
  fun db =>
    let d := mkDataset (next_id db) u fname now fname n avg_f avg_p avg_t
                       types in
    (Ok d, mkDB (datasets db ++ [d]) (next_id db + 1)).

(** [old_ds.file.delete(); old_ds.delete()] *)
Definition Dataset_delete (d : Dataset) : M DB unit :=
  modify (fun db =>
    mkDB (filter (fun d' => negb (id d' =? id d)%Z) (datasets db))
         (next_id db)).

(** Lines 91 to 97 of [upload_csv]: keep only the last five datasets of
    the user. *)
Definition keep_last_5 (u : string) : M DB unit :=
  user_datasets <- gets (Dataset_objects_filter u) ;;
  if (MAX_HISTORY <? List.length user_datasets)%nat then
    for_each (skipn MAX_HISTORY user_datasets) Dataset_delete
  else ret tt.

(** [upload_csv]; [now] is the reading of the clock when the Dataset row
    is created. *)
Definition upload_csv (now : Z) (request : Request) : M DB Response :=
  match FILES_file request with
  | None =>
      ret (mkResponse HTTP_400_BAD_REQUEST (Error "No file uploaded"))
  | Some file =>
      try_except
        (df <- lift (read_csv file) ;;
         if negb (forallb (has_column df) required_cols) then
           ret (mkResponse HTTP_400_BAD_REQUEST
                  (Error ("Invalid CSV format. Required columns: "
                          ++ String.concat ", " required_cols)))
         else
           let total_count := len df in
           avg_flowrate <- lift (mean (getitem df "Flowrate")) ;;
           avg_pressure <- lift (mean (getitem df "Pressure")) ;;
           avg_temperature <- lift (mean (getitem df "Temperature")) ;;
           let equipment_types := value_counts (getitem df "Type") in
           dataset <- Dataset_objects_create now (request_user request)
                        (name file) total_count avg_flowrate avg_pressure
                        avg_temperature equipment_types ;;
           keep_last_5 (request_user request) ;;;
           ret (mkResponse HTTP_200_OK
                  (Uploaded (id dataset) total_count equipment_types
                            (data df))))
        (fun e => ret (mkResponse HTTP_400_BAD_REQUEST (Error (str e))))
  end.

(** [get_history] *)
Definition get_history (u : string) (db : DB) : Response :=
  mkResponse HTTP_200_OK
    (History (firstn MAX_HISTORY (Dataset_objects_filter u db))).

(** [Dataset.objects.get(id=dataset_id, user=u)]; [None] stands for
    [Dataset.DoesNotExist]. *)
Definition Dataset_objects_get (dataset_id : Z) (u : string) (db : DB)
    : option Dataset :=
  find (fun d => (id d =? dataset_id)%Z && String.eqb (user d) u)
       (datasets db).

(** [generate_pdf] *)
Definition generate_pdf (u : string) (dataset_id : Z) (db : DB) : Response :=
  match Dataset_objects_get dataset_id u db with
  | Some dataset => mkResponse HTTP_200_OK (Pdf dataset)
  | None => mkResponse HTTP_404_NOT_FOUND (Error "Dataset not found")
  end.

(** A view called by the framework: an exception that leaves the view
    becomes a response with status 500. *)
Definition call (view : M DB Response) (db : DB) : Response * DB :=
  match view db with
  | (Ok resp, db') => (resp, db')
  | (Raise e, db') => (mkResponse 500 (Error (str e)), db')
  end.

(** A run of uploads, one after the other: each response with the store
    it leaves. *)
Fixpoint run_uploads (reqs : list (Z * Request)) (db : DB)
    : list (Response * DB) :=
  match reqs with
  | [] => []
  | (now, request) :: reqs' =>
      let (resp, db') := call (upload_csv now request) db in
      (resp, db') :: run_uploads reqs' db'
  end.

(** The store at the end of a run that started from [db]. *)
Definition final_store (trace : list (Response * DB)) (db : DB) : DB :=
  last (map snd trace) db.


End EquipmentApi.

(** ** [register] and [login] of [backend/equipment_api/api/views.py] *)

Module Accounts.
Local Open Scope string_scope.

(** [django.contrib.auth.models.User], the fields the views touch.  The
    password is kept as the text it was set from, [None] for an unusable
    password: the hash is taken to accept exactly the password it was made
    from. *)
Record User : Type := mkUser {
  user_id : Z;
  username : string;
  email : string;
  password : option string;
  is_active : bool
}.

(** [rest_framework.authtoken.models.Token]: the key is the primary key,
    the user a one-to-one relation. *)
Record Token : Type := mkToken {
  key : string;
  token_user : Z
}.

Record DB : Type := mkDB {
  users : list User;
  tokens : list Token;
  next_user_id : Z
}.

Definition empty_db : DB := mkDB [] [] 1.

(** [request.data]: the entries the views read, [None] when the key is
    absent. *)
Record Data : Type := mkData {
  data_username : option string;
  data_password : option string;
  data_email : option string
}.

(** [UserSerializer(user).data] *)
Record UserData : Type := mkUserData {
  ser_id : Z;
  ser_username : string;
  ser_email : string
}.

Definition UserSerializer (u : User) : UserData :=
  mkUserData (user_id u) (username u) (email u).

Inductive Body : Type :=
| Error (msg : string)
| Authenticated (token : string) (user : UserData).

Record Response : Type := mkResponse {
  status : nat;
  body : Body
}.

(** The exceptions that leave these views: neither has a handler. *)
Inductive exn : Type :=
| ValueError (msg : string)
| IntegrityError (msg : string).

Inductive outcome : Type :=
| Answer (resp : Response)
| Uncaught (e : exn).

Definition HTTP_200_OK : nat := 200.
Definition HTTP_201_CREATED : nat := 201.
Definition HTTP_400_BAD_REQUEST : nat := 400.
Definition HTTP_401_UNAUTHORIZED : nat := 401.

Definition named (n : string) (u : User) : bool := String.eqb (username u) n.

(** [User.objects.filter(username=username).exists()]; no row matches
    [None]. *)
Definition User_objects_filter_exists (name : option string) (db : DB) : bool :=
  match name with
  | Some n => existsb (named n) (users db)
  | None => false
  end.

Section Normalization.
(** [normalize_username] (Unicode NFKC) and [normalize_email] (the domain
    in lower case) of Django, taken as given. *)
Variable normalize_username : string -> string.
Variable normalize_email : string -> string.

(** [User.objects.create_user(username=..., password=..., email=...)]: the
    name must be set; the row is saved under the normalized name, which
    the table holds once at most. *)
Definition create_user (name : option string) (mail : string)
    (pass : option string) (db : DB) : exn + (User * DB) :=
  match name with
  | None | Some "" => inl (ValueError "The given username must be set")
  | Some n =>
      let u := mkUser (next_user_id db) (normalize_username n)
                      (normalize_email mail) pass true in
      if existsb (named (username u)) (users db) then
        inl (IntegrityError "UNIQUE constraint failed: auth_user.username")
      else
        inr (u, mkDB (users db ++ [u]) (tokens db) (next_user_id db + 1))
  end.

(** [Token.objects.get_or_create(user=user)]; [fresh_key] is the key
    [generate_key] draws when a token has to be made. *)
Definition Token_objects_get_or_create (fresh_key : string) (u : User)
    (db : DB) : exn + (Token * DB) :=
  match find (fun t => (token_user t =? user_id u)%Z) (tokens db) with
  | Some t => inr (t, db)
  | None =>
      if existsb (fun t => String.eqb (key t) fresh_key) (tokens db) then
        inl (IntegrityError "UNIQUE constraint failed: authtoken_token.key")
      else
        let t := mkToken fresh_key (user_id u) in
        inr (t, mkDB (users db) (tokens db ++ [t]) (next_user_id db))
  end.

(** [register] *)
Definition register (fresh_key : string) (data : Data) (db : DB)
    : outcome * DB :=
  let name := data_username data in
  let pass := data_password data in
  let mail := match data_email data with Some e => e | None => "" end in
  if User_objects_filter_exists name db then
    (Answer (mkResponse HTTP_400_BAD_REQUEST
               (Error "Username already exists")), db)
  else
    match create_user name mail pass db with
    | inl e => (Uncaught e, db)
    | inr (user, db1) =>
        match Token_objects_get_or_create fresh_key user db1 with
        | inl e => (Uncaught e, db1)
        | inr (token, db2) =>
            (Answer (mkResponse HTTP_201_CREATED
                       (Authenticated (key token) (UserSerializer user))),
             db2)
        end
    end.

End Normalization.

(** [user.check_password(raw)] *)
Definition check_password (raw : string) (u : User) : bool :=
  match password u with
  | Some p => String.eqb raw p
  | None => false
  end.

(** [authenticate(username=..., password=...)] with the model backend:
    nobody without both credentials, else the user of that name when the
    password is right and the user active. *)
Definition authenticate (name pass : option string) (db : DB) : option User :=
  match name, pass with
  | Some n, Some p =>
      match find (named n) (users db) with
      | Some u => if check_password p u && is_active u then Some u else None
      | None => None
      end
  | _, _ => None
  end.

(** [login] *)
Definition login (fresh_key : string) (data : Data) (db : DB)
    : outcome * DB :=
  match authenticate (data_username data) (data_password data) db with
  | Some user =>
      match Token_objects_get_or_create fresh_key user db with
      | inl e => (Uncaught e, db)
      | inr (token, db') =>
          (Answer (mkResponse HTTP_200_OK
                     (Authenticated (key token) (UserSerializer user))),
           db')
      end
  | None =>
      (Answer (mkResponse HTTP_401_UNAUTHORIZED (Error "Invalid credentials")),
       db)
  end.

End Accounts.

(** ** [MainWindow.browse_file] of [frontend-desktop/main.py] *)

Module Desktop.
Local Open Scope string_scope.

(** [s.split(sep)] for a separator of one character: the pieces between
    the separators, the empty ones included. *)
Fixpoint split (sep : ascii) (s : string) : list string :=
  match s with
  | EmptyString => [""]
  | String c s' =>
      if Ascii.eqb c sep then "" :: split sep s'
      else
        match split sep s' with
        | w :: ws => String c w :: ws
        | [] => [String c ""]
        end
  end.

(** The part of the window [browse_file] writes: the selected path, the
    text of the file label and whether the upload button is enabled. *)
Record MainWindow : Type := mkMainWindow {
  selected_file : option string;
  file_label : string;
  upload_btn_enabled : bool
}.

(** The window as [init_ui] leaves it. *)
Definition init_ui : MainWindow := mkMainWindow None "No file selected" false.

(** [browse_file]; [filename] is what the file dialog returns, the empty
    string when it is cancelled. *)
Definition browse_file (filename : string) (w : MainWindow) : MainWindow :=
  match filename with
  | EmptyString => w
  | _ => mkMainWindow (Some filename) (last (split "/" filename) "") true
  end.

End Desktop.

(** ** The wording of the specification, for comparison *)

Module Spec.
Import Float64 Pandas.
Local Open Scope string_scope.

(** Section 4.1, row cleaning policy: a row survives when none of the
    five required fields is missing and each numeric field is a finite
    real number. *)
Definition finite_number (c : cell) : bool :=
  match c with
  | Num x => is_finite x
  | _ => false
  end.

Definition row_survives (df : DataFrame) (row : list cell) : bool :=
  forallb (fun col => negb (isna (row_get df row col)))
    ["Equipment Name"; "Type"; "Flowrate"; "Pressure"; "Temperature"]
  && forallb (fun col => finite_number (row_get df row col))
    ["Flowrate"; "Pressure"; "Temperature"].

Definition cleaned_rows (df : DataFrame) : list (list cell) :=
  filter (row_survives df) (data df).

(** Section 4.4, [typeSeries]: the labels in the order in which the
    cleaned data first shows them. *)
Fixpoint discovery_order (labels seen : list cell) : list cell :=
  match labels with
  | [] => []
  | c :: labels' =>
      if in_dec cell_eq_dec c seen then discovery_order labels' seen
      else c :: discovery_order labels' (c :: seen)
  end.

(** The number of rows carrying a label. *)
Definition occurrences (c : cell) (labels : list cell) : nat :=
  count_occ cell_eq_dec labels c.



End Spec.

(** ** Concrete inputs *)

Module Examples.
Import Float64 Exec Pandas.
Local Open Scope string_scope.

(** The two rows of the example of the specification, and a few tables
    used as concrete inputs below. *)
Definition header : list string :=
  ["Equipment Name"; "Type"; "Flowrate"; "Pressure"; "Temperature"].

Definition two_rows : DataFrame :=
  mkDataFrame header
    [ [Str "Pump1"; Str "Pump"; Num (decimal 100 1); Num (decimal 50 1);
       Num (decimal 3000 1)];
      [Str "Valve1"; Str "Valve"; Num (decimal 200 1); Num (decimal 70 1);
       Num (decimal 3100 1)] ].

(** One row whose flowrate is the text [abc]. *)
Definition text_in_flowrate : DataFrame :=
  mkDataFrame header
    [ [Str "Pump1"; Str "Pump"; Str "abc"; Num (decimal 50 1);
       Num (decimal 3000 1)] ].

(** One row without a flowrate. *)
Definition missing_flowrate : DataFrame :=
  mkDataFrame header
    [ [Str "Pump1"; Str "Pump"; NA; Num (decimal 50 1);
       Num (decimal 3000 1)] ].


(** Three rows with the flowrate [0.1]. *)
Definition three_tenths : DataFrame :=
  mkDataFrame header
    [ [Str "P1"; Str "Pump"; Num (decimal 1 1); Num (decimal 50 1);
       Num (decimal 3000 1)];
      [Str "P2"; Str "Pump"; Num (decimal 1 1); Num (decimal 50 1);
       Num (decimal 3000 1)];
      [Str "P3"; Str "Pump"; Num (decimal 1 1); Num (decimal 50 1);
       Num (decimal 3000 1)] ].

(** A pump first, then two valves. *)
Definition pump_valve_valve : DataFrame :=
  mkDataFrame header
    [ [Str "Pump1"; Str "Pump"; Num (decimal 100 1); Num (decimal 50 1);
       Num (decimal 3000 1)];
      [Str "Valve1"; Str "Valve"; Num (decimal 200 1); Num (decimal 70 1);
       Num (decimal 3100 1)];
      [Str "Valve2"; Str "Valve"; Num (decimal 300 1); Num (decimal 80 1);
       Num (decimal 3200 1)] ].

Definition csv (fname : string) (df : DataFrame) : UploadedFile :=
  mkFile fname (Ok df).

Definition anonymous (f : UploadedFile) : ChemicalEquipment.Request :=
  ChemicalEquipment.mkRequest (Some f) None.

Definition by_user (u : string) (f : UploadedFile) : EquipmentApi.Request :=
  EquipmentApi.mkRequest (Some f) u.

(** Six uploads of one user, at the times 1 to 6. *)
Definition six_uploads : list (Z * EquipmentApi.Request) :=
  map (fun t => (t, by_user "ann" (csv "data.csv" two_rows)))
      [1; 2; 3; 4; 5; 6]%Z.

End Examples.

(** ** Notions used in the statements *)

Import Float64 Exec Pandas Orm.
Local Open Scope string_scope.
Local Open Scope list_scope.


(** [sum(d.values())] for a distribution *)
Definition total (l : list (cell * nat)) : nat := list_sum (map snd l).

(** The count recorded for a label, [0] when the label is absent. *)
Definition count_of (c : cell) (l : list (cell * nat)) : nat :=
  match find (fun p => if cell_eq_dec c (fst p) then true else false) l with
  | Some p => snd p
  | None => 0
  end.

(** The state of the counting loop: labels distinct, none of them
    missing, every count positive. *)
Record counting (l : list (cell * nat)) : Prop := {
  counting_nodup : NoDup (map fst l);
  counting_present : Forall (fun p => isna (fst p) = false) l;
  counting_positive : Forall (fun p => 0 < snd p) l
}.

(** One step of the counting loop of [count_values]. *)
Definition count_step (acc : list (cell * nat)) (c : cell)
    : list (cell * nat) :=
  if isna c then acc else incr c acc.

(** The order of a distribution sorted by count, larger counts first. *)
Definition count_ge (p q : cell * nat) : Prop := snd q <= snd p.

(** A binary64 number as a file holds it: canonical and finite. *)
Definition proper (x : float64) : Prop :=
  valid x = true /\ is_finite x = true.

(** The exact sum of a column, in units of [2^-1074]. *)
Definition exact_sum (xs : list float64) : Z :=
  fold_right Z.add 0%Z (map scaled xs).







(** The order of a query set sorted newest first. *)
Definition newer_or_equal {A : Type} (key : A -> Z) (a b : A) : Prop :=
  (key b <= key a)%Z.

Section UploadNotions.
Import ChemicalEquipment.

(** The Dataset row written by [Dataset.objects.create] in [upload]. *)
Definition created (now : Z) (request : Request) (csv_file : UploadedFile)
    (df : DataFrame) (db : DB) : Dataset :=
  mkDataset (next_id db) (request_user request) (name csv_file) now
            (len (dropna required_columns df)) None.

(** The store right after [Dataset.objects.create] in [upload]. *)
Definition db_created (now : Z) (request : Request) (csv_file : UploadedFile)
    (df : DataFrame) (db : DB) : DB :=
  mkDB (datasets db ++ [created now request csv_file df db])
       (equipment_records db) (next_id db + 1).

End UploadNotions.

Section RetentionNotions.
Import EquipmentApi.
Local Open Scope Z_scope.

(** The primary key of [d] is the one of a dataset of [olds], the
    datasets to delete. *)
Definition doomed (olds : list Dataset) (d : Dataset) : bool :=
  existsb (fun o => (id d =? id o)%Z) olds.

(** The store after [keep_last_5]. *)
Definition evicted (u : string) (db : DB) : DB :=
  let user_datasets := Dataset_objects_filter u db in
  mkDB (filter (fun d => negb (doomed (skipn MAX_HISTORY user_datasets) d))
               (datasets db))
       (next_id db).

(** The Dataset row written by [upload_csv]. *)
Definition stored (now : Z) (request : Request) (file : UploadedFile)
    (df : DataFrame) (avg_f avg_p avg_t : float64) (db : DB) : Dataset :=
  mkDataset (next_id db) (request_user request) (name file) now (name file)
            (len df) avg_f avg_p avg_t (value_counts (getitem df "Type")).

(** Primary keys are unique and below the next key. *)
Definition wf (db : DB) : Prop :=
  NoDup (map id (datasets db))
  /\ Forall (fun d => id d < next_id db) (datasets db).

(** [user=u] in a filter *)
Definition owned_by (u : string) (d : Dataset) : bool :=
  String.eqb (user d) u.

(** The history of a user: the query set of [get_history] before it is
    cut to five. *)
Definition history (u : string) (db : DB) : list Dataset :=
  Dataset_objects_filter u db.


End RetentionNotions.

(** ** Stores used as examples *)

Module Stores.
Import EquipmentApi.
Local Open Scope string_scope.
Local Open Scope Z_scope.

Definition row (i : Z) (u : string) (t : Z) : Dataset :=
  mkDataset i u "old.csv" t "old.csv" 0 zero zero zero [].

(** Datasets of two users. *)
Definition shared : DB :=
  mkDB [row 1 "ann" 10; row 2 "bob" 11; row 3 "ann" 12] 4.

(** More datasets of one user than [keep_last_5] leaves, as an older
    version of the view may have stored them. *)
Definition crowded : DB :=
  mkDB [row 1 "ann" 10; row 2 "ann" 11; row 3 "ann" 12; row 4 "ann" 13;
        row 5 "ann" 14; row 6 "ann" 15; row 7 "ann" 16; row 8 "bob" 17] 9.

End Stores.

Module ChemStores.
Import ChemicalEquipment.
Local Open Scope string_scope.
Local Open Scope Z_scope.

Definition row (i t : Z) : Dataset :=
  mkDataset i None "old.csv" t 0 None.

Definition part (i : Z) : Equipment :=
  mkEquipment i (Str "Pump-1") (Str "Pump") zero zero zero.

(** Seven datasets, more than [upload] leaves, with one Equipment row
    each. *)
Definition crowded : DB :=
  mkDB [row 1 10; row 2 11; row 3 12; row 4 13; row 5 14; row 6 15; row 7 16]
       [part 1; part 2; part 3; part 4; part 5; part 6; part 7]
       8.


End ChemStores.

Section StoreNotions.
Import ChemicalEquipment.
Local Open Scope Z_scope.

(** The primary key of [d] is the one of a dataset of [olds], the
    datasets [upload] deletes. *)
Definition stale (olds : list Dataset) (d : Dataset) : bool :=
  existsb (fun o => id d =? id o) olds.

(** The Equipment row [e] belongs to a dataset of [olds]. *)
Definition orphaned (olds : list Dataset) (e : Equipment) : bool :=
  existsb (fun o => dataset_id e =? id o) olds.

(** The store after the loop over [Dataset.objects.all()[5:]]. *)
Definition pruned (db : DB) : DB :=
  let old_datasets := skipn 5 (Dataset_objects_all db) in
  mkDB (filter (fun d => negb (stale old_datasets d)) (datasets db))
       (filter (fun e => negb (orphaned old_datasets e))
               (equipment_records db))
       (next_id db).

(** The store after [dataset.save()] and
    [Equipment.objects.bulk_create(equipment_list)]. *)
Definition written (d : Dataset) (eqs : list Equipment) (db : DB) : DB :=
  mkDB (map (fun d' => if id d' =? id d then d else d') (datasets db))
       (equipment_records db ++ eqs) (next_id db).

(** Primary keys are unique and below the next key, and every Equipment
    row belongs to a stored Dataset. *)
Definition sound (db : DB) : Prop :=
  NoDup (map id (datasets db))
  /\ Forall (fun d => id d < next_id db) (datasets db)
  /\ Forall (fun e => In (dataset_id e) (map id (datasets db)))
            (equipment_records db).

(** No stored dataset was created after [t]. *)
Definition not_after (t : Z) (db : DB) : Prop :=
  Forall (fun d => uploaded_at d <= t) (datasets db).

(** The Equipment rows of a dataset, in storage order. *)
Definition rows_of (d : Dataset) (db : DB) : list Equipment :=
  filter (fun e => dataset_id e =? id d) (equipment_records db).

End StoreNotions.

Section AccountNotions.
Import Accounts.
Local Open Scope Z_scope.

(** The constraints of the user and token tables: user names, user keys
    and token keys are unique, the user keys are below the next key, a user
    has one token at most and every token belongs to a user. *)
Definition consistent (db : DB) : Prop :=
  NoDup (map username (users db))
  /\ NoDup (map user_id (users db))
  /\ Forall (fun u => user_id u < next_user_id db) (users db)
  /\ NoDup (map key (tokens db))
  /\ NoDup (map token_user (tokens db))
  /\ Forall (fun t => In (token_user t) (map user_id (users db)))
            (tokens db).

(** The store of an outcome. *)
Definition store_of (r : outcome * DB) : DB := snd r.

(** NFKC on the names of the examples: the ligature U+FB01, the bytes
    239, 172, 129 in UTF-8, becomes "fi", and a name in ASCII is left as it
    is. *)
Definition ligature_fi : string :=
  String (ascii_of_nat 239) (String (ascii_of_nat 172)
    (String (ascii_of_nat 129) EmptyString)).

Definition nfkc (s : string) : string :=
  if String.eqb s (ligature_fi ++ "ona")%string then "fiona"%string else s.

(** A store with one user and her token. *)
Definition one_user : DB :=
  mkDB [mkUser 1 "fiona" "fiona@example.org" (Some "s3cret") true]
       [mkToken "9944b09199c62bcf" 1] 2.

End AccountNotions.

(** The character [c] occurs in [s]: [c in s]. *)
Fixpoint occurs (c : ascii) (s : string) : bool :=
  match s with
  | EmptyString => false
  | String c' s' => Ascii.eqb c' c || occurs c s'
  end.

(* ===================================================================== *)
(** * Part II: lemmas and theorems *)
(* ===================================================================== *)

(** ** The extension guard of [upload] (C10) *)

Section UploadGuards.
Import ChemicalEquipment.

(** C10. [upload] answers 400 "File must be CSV format" for every file
    whose name does not end with [.csv], whatever the file holds (a
    well-formed table included, which is never read), and the store is
    left as it was. *)
Theorem C10_upload_rejects_other_extensions :
  forall (now : Z) (request : Request) (csv_file : UploadedFile) (db : DB),
    FILES_file request = Some csv_file ->
    endswith (name csv_file) ".csv" = false ->
    upload now request db
    = (Ok (mkResponse HTTP_400_BAD_REQUEST (Error "File must be CSV format")),
       db).
Proof.
  intros now request csv_file db Hfile Hname.
  unfold upload. rewrite Hfile, Hname. reflexivity.
Qed.

Lemma C10_upload_rejects_other_extensions_witness :
  upload 7 (mkRequest (Some (mkFile "data.txt" (Ok Examples.two_rows))) None)
         empty_db
  = (Ok (mkResponse HTTP_400_BAD_REQUEST (Error "File must be CSV format")),
     empty_db).
Proof.
  apply (@C10_upload_rejects_other_extensions 7 _
           (mkFile "data.txt" (Ok Examples.two_rows)) empty_db);
    reflexivity.
Defined.

Example endswith_csv :
  endswith "data.csv" ".csv" = true
  /\ endswith ".csv" ".csv" = true
  /\ endswith "data.CSV" ".csv" = false
  /\ endswith "data.csv.txt" ".csv" = false
  /\ endswith "csv" ".csv" = false.
Proof. repeat split. Qed.

End UploadGuards.

(** ** The order of binary64 numbers *)

Section FloatOrder.


Ltac float_cases :=
  repeat match goal with
  | x : float64 |- _ => destruct x
  | x : spec_float |- _ => destruct x
  | s : bool |- _ => destruct s
  end;
  cbn in *; try congruence.

Ltac order_cases :=
  repeat match goal with
  | H : context [Z.compare ?a ?b] |- _ =>
      destruct (Z.compare_spec a b); try congruence
  | |- context [Z.compare ?a ?b] =>
      destruct (Z.compare_spec a b); try congruence
  | H : context [Pos.compare_cont Eq ?a ?b] |- _ =>
      change (Pos.compare_cont Eq a b) with (Pos.compare a b) in *;
      destruct (Pos.compare_spec a b); try congruence
  | |- context [Pos.compare_cont Eq ?a ?b] =>
      change (Pos.compare_cont Eq a b) with (Pos.compare a b) in *;
      destruct (Pos.compare_spec a b); try congruence
  end;
  cbn in *; subst; try congruence; try lia.


Lemma leb_total (x y : float64) :
  is_nan x = false -> is_nan y = false -> leb x y = true \/ leb y x = true.
Proof.
  unfold leb, SFleb. float_cases; auto; order_cases; auto.
Qed.




Lemma leb_not_nan (x y : float64) :
  leb x y = true -> is_nan x = false /\ is_nan y = false.
Proof. unfold leb, SFleb. float_cases; auto. Qed.

End FloatOrder.

(** ** Columns: values, minimum, maximum *)

Section Columns.



Lemma numeric_values_none (c : cell) (s : Series) :
  numeric_values s = None -> numeric_values (c :: s) = None.
Proof.
  intros Hs. cbn. rewrite Hs. destruct c; reflexivity.
Qed.

(** A column has no numeric values exactly when it holds a string. *)
Lemma numeric_values_strings (s : Series) :
  numeric_values s = None <-> exists str, In (Str str) s.
Proof.
  induction s as [|c s IH].
  - cbn. split; [discriminate | intros [? []]].
  - split.
    + intros H. destruct c as [|x|str]; [| |exists str; left; reflexivity];
        cbn in H; destruct (numeric_values s) as [ys|] eqn:E;
        try discriminate;
        destruct IH as [IH _]; destruct (IH eq_refl) as [str Hs];
        exists str; right; exact Hs.
    + intros [str [->|Hs]]; [reflexivity|].
      apply numeric_values_none, IH. eauto.
Qed.







End Columns.

(** ** Counting values *)

Section ValueCounts.

Lemma total_cons (p : cell * nat) (l : list (cell * nat)) :
  total (p :: l) = snd p + total l.
Proof. reflexivity. Qed.

Lemma total_incr (k : cell) (acc : list (cell * nat)) :
  total (incr k acc) = S (total acc).
Proof.
  induction acc as [|[k' n] acc IH]; [reflexivity|].
  cbn [incr]. destruct (cell_eq_dec k k'); rewrite !total_cons; cbn [snd].
  - reflexivity.
  - rewrite IH. lia.
Qed.

Lemma keys_incr (k : cell) (acc : list (cell * nat)) :
  (In k (map fst acc) /\ map fst (incr k acc) = map fst acc)
  \/ (~ In k (map fst acc) /\ map fst (incr k acc) = map fst acc ++ [k]).
Proof.
  induction acc as [|[k' n] acc IH]; cbn [incr map fst].
  - right. split; [intros [] | reflexivity].
  - destruct (cell_eq_dec k k') as [->|Hne]; cbn [map fst].
    + left. split; [left; reflexivity | reflexivity].
    + destruct IH as [[Hin IH]|[Hout IH]]; rewrite IH.
      * left. split; [right; exact Hin | reflexivity].
      * right. split; [|reflexivity].
        intros [H|H]; [congruence | contradiction].
Qed.

Lemma count_of_incr (k c : cell) (acc : list (cell * nat)) :
  count_of c (incr k acc)
  = if cell_eq_dec c k then S (count_of c acc) else count_of c acc.
Proof.
  unfold count_of. induction acc as [|[k' n] acc IH]; cbn.
  - destruct (cell_eq_dec c k); reflexivity.
  - destruct (cell_eq_dec k k') as [->|Hne]; cbn.
    + destruct (cell_eq_dec c k'); reflexivity.
    + destruct (cell_eq_dec c k') as [->|Hne'].
      * destruct (cell_eq_dec k' k); [congruence | reflexivity].
      * exact IH.
Qed.

Lemma count_of_absent (c : cell) (l : list (cell * nat)) :
  ~ In c (map fst l) -> count_of c l = 0.
Proof.
  unfold count_of. induction l as [|[k n] l IH]; cbn; auto.
  intros H. destruct (cell_eq_dec c k) as [->|Hne]; [tauto | auto].
Qed.

Lemma count_of_present (c : cell) (n : nat) (l : list (cell * nat)) :
  NoDup (map fst l) -> In (c, n) l -> count_of c l = n.
Proof.
  unfold count_of. induction l as [|[k m] l IH]; cbn; [tauto|].
  intros Hnd [H|H]; inversion Hnd as [|k' l' Hk Hl]; subst.
  - injection H as -> ->. destruct (cell_eq_dec c c); [reflexivity|congruence].
  - destruct (cell_eq_dec c k) as [->|Hne]; auto.
    exfalso. apply Hk. change k with (fst (k, n)). apply in_map, H.
Qed.

Lemma in_count_of (c : cell) (l : list (cell * nat)) :
  In c (map fst l) -> In (c, count_of c l) l.
Proof.
  unfold count_of. induction l as [|[k m] l IH]; cbn; [tauto|].
  intros H. destruct (cell_eq_dec c k) as [->|Hne]; cbn; auto.
  destruct H as [H|H]; [congruence | auto].
Qed.

Lemma counting_nil : counting [].
Proof. split; constructor. Qed.

Lemma incr_spec (k : cell) (acc : list (cell * nat)) :
  isna k = false -> counting acc -> counting (incr k acc).
Proof.
  intros Hk [Hnd Hpr Hpos]. split.
  - destruct (keys_incr k acc) as [[Hin ->]|[Hout ->]]; auto.
    apply NoDup_app; auto.
    + repeat constructor. simpl. tauto.
    + intros a Ha [<-|[]]. contradiction.
  - clear Hnd Hpos. induction acc as [|[k' n] acc IH]; cbn.
    + repeat constructor. exact Hk.
    + inversion Hpr; subst.
      destruct (cell_eq_dec k k'); constructor; auto.
  - clear Hnd Hpr. induction acc as [|[k' n] acc IH]; cbn.
    + repeat constructor.
    + inversion Hpos; subst.
      destruct (cell_eq_dec k k'); constructor; cbn in *; auto; lia.
Qed.

Lemma count_loop (s : Series) :
  forall acc, counting acc ->
    let r := fold_left count_step s acc in
    counting r
    /\ total r = total acc + List.length (filter (fun c => negb (isna c)) s)
    /\ (forall c, isna c = false ->
          count_of c r = count_of c acc + count_occ cell_eq_dec s c).
Proof.
  induction s as [|c s IH]; intros acc Hacc.
  - cbn. split; [exact Hacc | split; auto].
  - cbn [fold_left filter count_occ].
    assert (Hstep : count_step acc c = if isna c then acc else incr c acc)
      by reflexivity.
    destruct (isna c) eqn:Ec; rewrite Hstep; cbn [negb].
    + destruct (IH acc Hacc) as (H1 & H2 & H3).
      split; [exact H1 | split; [exact H2|]].
      intros c' Hc'. rewrite H3 by auto.
      destruct (cell_eq_dec c c'); [congruence | reflexivity].
    + destruct (IH (incr c acc) (incr_spec c acc Ec Hacc)) as (H1 & H2 & H3).
      split; [exact H1 | split].
      * rewrite H2, total_incr. cbn [List.length]. lia.
      * intros c' Hc'. rewrite H3 by auto. rewrite count_of_incr.
        destruct (cell_eq_dec c' c) as [E1|E1];
          destruct (cell_eq_dec c c') as [E2|E2]; try congruence; lia.
Qed.

Lemma count_values_spec (s : Series) :
  counting (count_values s)
  /\ total (count_values s) = List.length (filter (fun c => negb (isna c)) s)
  /\ (forall c, isna c = false ->
        count_of c (count_values s) = count_occ cell_eq_dec s c).
Proof.
  exact (count_loop s [] counting_nil).
Qed.

(** Sorting by count permutes the table and puts the larger counts
    first. *)
Lemma insert_by_count_perm (p : cell * nat) (l : list (cell * nat)) :
  Permutation (insert_by_count p l) (p :: l).
Proof.
  induction l as [|q l IH]; cbn; auto.
  destruct (snd q <=? snd p)%nat; auto.
  rewrite IH. apply perm_swap.
Qed.

Lemma sort_by_count_perm (l : list (cell * nat)) :
  Permutation (sort_by_count l) l.
Proof.
  induction l as [|p l IH]; cbn; auto.
  rewrite insert_by_count_perm. auto.
Qed.

Lemma insert_by_count_sorted (p : cell * nat) (l : list (cell * nat)) :
  Sorted count_ge l -> Sorted count_ge (insert_by_count p l).
Proof.
  induction l as [|q l IH]; cbn; intros Hs.
  - repeat constructor.
  - destruct (snd q <=? snd p)%nat eqn:E.
    + constructor; auto. constructor. apply Nat.leb_le, E.
    + apply Nat.leb_gt in E. inversion Hs as [|q' l' Hl Hq]; subst.
      constructor; auto.
      destruct l as [|r l]; cbn.
      * constructor. unfold count_ge. lia.
      * inversion Hq; subst.
        destruct (snd r <=? snd p)%nat; constructor; auto.
        unfold count_ge. lia.
Qed.

Lemma sort_by_count_sorted (l : list (cell * nat)) :
  Sorted count_ge (sort_by_count l).
Proof.
  induction l as [|p l IH]; cbn; [constructor|].
  apply insert_by_count_sorted, IH.
Qed.

Lemma total_perm (l l' : list (cell * nat)) :
  Permutation l l' -> total l = total l'.
Proof.
  induction 1; rewrite ?total_cons; lia.
Qed.

Lemma counting_perm (l l' : list (cell * nat)) :
  Permutation l l' -> counting l -> counting l'.
Proof.
  intros HP [Hnd Hpr Hpos]. split.
  - eapply Permutation_NoDup; [apply Permutation_map, HP | exact Hnd].
  - eapply Permutation_Forall; eauto.
  - eapply Permutation_Forall; eauto.
Qed.

Lemma count_of_perm (c : cell) (l l' : list (cell * nat)) :
  NoDup (map fst l) -> Permutation l l' -> count_of c l = count_of c l'.
Proof.
  intros Hnd HP.
  assert (Hnd' : NoDup (map fst l'))
    by (eapply Permutation_NoDup; [apply Permutation_map, HP | exact Hnd]).
  destruct (in_dec cell_eq_dec c (map fst l)) as [Hin|Hout].
  - symmetry. apply count_of_present; auto.
    eapply Permutation_in; [exact HP|]. apply in_count_of, Hin.
  - rewrite (count_of_absent _ l Hout). symmetry. apply count_of_absent.
    intros H. apply Hout.
    eapply Permutation_in; [symmetry; apply Permutation_map, HP | exact H].
Qed.

(** [value_counts]: one entry per label present, holding the number of
    cells equal to it, larger counts first; the counts add up to the number
    of cells present. *)
Lemma value_counts_spec (s : Series) :
  counting (value_counts s)
  /\ Sorted count_ge (value_counts s)
  /\ Permutation (value_counts s) (count_values s)
  /\ total (value_counts s) = List.length (filter (fun c => negb (isna c)) s)
  /\ (forall c, isna c = false ->
        count_of c (value_counts s) = count_occ cell_eq_dec s c).
Proof.
  destruct (count_values_spec s) as (H1 & H2 & H3).
  pose proof (sort_by_count_perm (count_values s)) as HP.
  unfold value_counts. split; [|split; [|split; [|split]]].
  - apply (counting_perm _ _ (Permutation_sym HP) H1).
  - apply sort_by_count_sorted.
  - exact HP.
  - rewrite (total_perm _ _ HP). exact H2.
  - intros c Hc. rewrite <- H3 by exact Hc.
    symmetry. apply count_of_perm; [apply H1 | apply Permutation_sym, HP].
Qed.

End ValueCounts.

(** ** [DatasetViewSet.upload], case by case *)

Section UploadCases.
Import ChemicalEquipment.

Lemma for_each_delete_total (l : list Dataset) :
  forall db, exists db', for_each l Dataset_delete db = (Ok tt, db').
Proof.
  induction l as [|d l IH]; intros db; cbn.
  - eexists. reflexivity.
  - apply IH.
Qed.

(** A 201 answer comes from a file named [*.csv] that reads as a table
    with the five columns and at least one complete row, whose summary is
    computed without an exception; the answer carries the Dataset with that
    summary. *)
Lemma upload_created (now : Z) (request : Request) (db db' : DB)
    (resp : Response) :
  upload now request db = (Ok resp, db') ->
  status resp = HTTP_201_CREATED ->
  exists csv_file df s,
    FILES_file request = Some csv_file
    /\ endswith (name csv_file) ".csv" = true
    /\ read_csv csv_file = Ok df
    /\ missing_columns df = []
    /\ len (dropna required_columns df) <> 0
    /\ summarize (dropna required_columns df) = Ok s
    /\ body resp
       = DatasetData (set_summary_data (created now request csv_file df db) s).
Proof.
  unfold upload. intros H Hst.
  destruct (FILES_file request) as [csv_file|];
    [|injection H as <- <-; discriminate].
  destruct (endswith (name csv_file) ".csv") eqn:Hname; cbn [negb] in H;
    [|injection H as <- <-; discriminate].
  unfold try_except, bind, lift, ret, gets in H.
  destruct (read_csv csv_file) as [df|e] eqn:Hread;
    [|injection H as <- <-; discriminate].
  destruct (missing_columns df) as [|c cs] eqn:Hmiss;
    [|injection H as <- <-; discriminate].
  destruct (len (dropna required_columns df) =? 0)%nat eqn:Hlen;
    [injection H as <- <-; discriminate|].
  cbn [Dataset_objects_create] in H.
  destruct (summarize (dropna required_columns df)) as [s|e] eqn:Hsum;
    [|injection H as <- <-; discriminate].
  exists csv_file, df, s.
  repeat (split; [first [reflexivity | assumption
                        | apply Nat.eqb_neq; assumption]|]).
  unfold Dataset_save, Equipment_objects_bulk_create, modify in H.
  destruct (rmap _ _) as [eqs|e] in H;
    [|injection H as <- <-; discriminate].
  match type of H with
  | context [for_each ?l Dataset_delete ?d] =>
      destruct (for_each_delete_total l d) as [db'' Hdel]; rewrite Hdel in H
  end.
  injection H as <- <-. reflexivity.
Qed.

End UploadCases.

(** ** Cleaning and summarizing *)

Section Summaries.
Import ChemicalEquipment.

Lemma row_get_dropna (subset : list string) (df : DataFrame) :
  row_get (dropna subset df) = row_get df.
Proof. reflexivity. Qed.

Lemma len_dropna (subset : list string) (df : DataFrame) :
  len (dropna subset df)
  = List.length (filter (row_complete df subset) (data df)).
Proof. reflexivity. Qed.

(** After [dropna], a column of the subset has no missing value. *)
Lemma dropna_column (subset : list string) (df : DataFrame) (col : string) :
  In col subset ->
  Forall (fun c => isna c = false) (getitem (dropna subset df) col).
Proof.
  intros Hcol. unfold getitem. rewrite Forall_map, Forall_forall.
  intros row Hrow. cbn in Hrow. apply filter_In in Hrow as [_ Hrow].
  unfold row_complete in Hrow. rewrite forallb_forall in Hrow.
  rewrite row_get_dropna. apply negb_true_iff, Hrow, Hcol.
Qed.

Lemma getitem_length (df : DataFrame) (col : string) :
  List.length (getitem df col) = len df.
Proof. apply length_map. Qed.


(** What [summarize] returns when it returns. *)
Lemma summarize_ok (df : DataFrame) (s : Summary) :
  summarize df = Ok s ->
  exists fs ps ts,
    numeric_values (getitem df "Flowrate") = Some fs
    /\ numeric_values (getitem df "Pressure") = Some ps
    /\ numeric_values (getitem df "Temperature") = Some ts
    /\ s = mkSummary (len df) (average fs) (average ps) (average ts)
             (value_counts (getitem df "Type"))
             (fmin fs) (fmax fs) (fmin ps) (fmax ps) (fmin ts) (fmax ts).
Proof.
  unfold summarize, mean, min, max, rbind.
  destruct (numeric_values (getitem df "Flowrate")) as [fs|]; [|discriminate].
  destruct (numeric_values (getitem df "Pressure")) as [ps|]; [|discriminate].
  destruct (numeric_values (getitem df "Temperature")) as [ts|];
    [|discriminate].
  intros H. injection H as <-. exists fs, ps, ts. auto.
Qed.


End Summaries.

(** ** The outcomes of [upload] on a table with the five columns *)

Section UploadOutcomes.
Import ChemicalEquipment.

Lemma rmap_total {A B : Type} (f : A -> result B) (l : list A) :
  (forall a, In a l -> exists b, f a = Ok b) ->
  exists bs, rmap f l = Ok bs /\ List.length bs = List.length l.
Proof.
  induction l as [|a l IH]; intros H; cbn.
  - exists []. auto.
  - destruct (H a (or_introl eq_refl)) as [b ->].
    destruct IH as (bs & -> & Hlen); [intros; apply H; right; assumption|].
    exists (b :: bs). cbn. auto.
Qed.

Lemma to_float_total (df : DataFrame) (col : string) (xs : list float64)
    (row : list cell) :
  numeric_values (getitem df col) = Some xs ->
  In row (data df) ->
  exists x, to_float (row_get df row col) = Ok x.
Proof.
  intros Hnum Hrow.
  destruct (row_get df row col) as [|x|str] eqn:E; cbn; eauto.
  assert (Hnone : numeric_values (getitem df col) = None).
  { apply numeric_values_strings. exists str. unfold getitem.
    rewrite <- E. apply (in_map (fun r => row_get df r col)), Hrow. }
  congruence.
Qed.

(** Once the summary is computed, the Equipment rows are built without
    an exception, one per cleaned row. *)
Lemma equipment_rows_total (df : DataFrame) (s : Summary) (d : Dataset) :
  summarize df = Ok s ->
  exists eqs, rmap (equipment_of_row df d) (data df) = Ok eqs
              /\ List.length eqs = len df.
Proof.
  intros Hs. apply summarize_ok in Hs as (fs & ps & ts & Hf & Hp & Ht & _).
  apply rmap_total. intros row Hrow. unfold equipment_of_row, rbind.
  destruct (to_float_total df _ _ row Hf Hrow) as [x ->].
  destruct (to_float_total df _ _ row Hp Hrow) as [y ->].
  destruct (to_float_total df _ _ row Ht Hrow) as [z ->].
  eauto.
Qed.

Variables (now : Z) (request : Request) (csv_file : UploadedFile)
          (df : DataFrame) (db : DB).
Hypothesis Hfile : FILES_file request = Some csv_file.
Hypothesis Hname : endswith (name csv_file) ".csv" = true.
Hypothesis Hread : read_csv csv_file = Ok df.

Let df_clean : DataFrame := dropna required_columns df.

Lemma upload_missing_columns :
  missing_columns df <> [] ->
  upload now request db
  = (Ok (mkResponse HTTP_400_BAD_REQUEST
           (Error ("Missing required columns: "
                   ++ String.concat ", " (missing_columns df))%string)),
     db).
Proof.
  intros Hmiss. unfold upload. rewrite Hfile, Hname. cbn [negb].
  unfold try_except, bind, lift. rewrite Hread.
  destruct (missing_columns df); [congruence | reflexivity].
Qed.

Lemma upload_no_valid_data :
  missing_columns df = [] -> len df_clean = 0 ->
  upload now request db
  = (Ok (mkResponse HTTP_400_BAD_REQUEST (Error "No valid data found in CSV")),
     db).
Proof.
  intros Hmiss Hlen. unfold upload. rewrite Hfile, Hname. cbn [negb].
  unfold try_except, bind, lift. rewrite Hread, Hmiss.
  fold df_clean. rewrite Hlen. reflexivity.
Qed.

(** The exception path: the Dataset row is already written when the
    summary raises, and it stays. *)
Lemma upload_summary_raises (e : exn) :
  missing_columns df = [] -> len df_clean <> 0 ->
  summarize df_clean = Raise e ->
  upload now request db
  = (Ok (mkResponse HTTP_400_BAD_REQUEST
           (Error ("Error processing CSV: " ++ str e)%string)),
     db_created now request csv_file df db).
Proof.
  intros Hmiss Hlen Hsum. unfold upload. rewrite Hfile, Hname. cbn [negb].
  unfold try_except, bind, lift. rewrite Hread, Hmiss.
  fold df_clean. apply Nat.eqb_neq in Hlen. rewrite Hlen.
  cbn [Dataset_objects_create]. rewrite Hsum. reflexivity.
Qed.

Lemma upload_summary_ok (s : Summary) :
  missing_columns df = [] -> len df_clean <> 0 ->
  summarize df_clean = Ok s ->
  exists db',
    upload now request db
    = (Ok (mkResponse HTTP_201_CREATED
             (DatasetData
                (set_summary_data (created now request csv_file df db) s))),
       db').
Proof.
  intros Hmiss Hlen Hsum. unfold upload. rewrite Hfile, Hname. cbn [negb].
  unfold try_except, bind, lift. rewrite Hread, Hmiss.
  fold df_clean. apply Nat.eqb_neq in Hlen. rewrite Hlen.
  cbn [Dataset_objects_create]. rewrite Hsum.
  unfold Dataset_save, Equipment_objects_bulk_create, modify, gets, ret.
  match goal with
  | |- context [rmap (equipment_of_row df_clean ?d) _] =>
      destruct (equipment_rows_total df_clean s d Hsum) as (eqs & -> & _)
  end.
  match goal with
  | |- context [for_each ?l Dataset_delete ?d] =>
      destruct (for_each_delete_total l d) as [db'' ->]
  end.
  eexists. reflexivity.
Qed.

End UploadOutcomes.

(** ** The outcomes of [upload_csv] *)

Section UploadCsvOutcomes.
Import EquipmentApi.

Lemma filter_id {A : Type} (f : A -> bool) (l : list A) :
  (forall x, In x l -> f x = true) -> filter f l = l.
Proof.
  induction l as [|x l IH]; cbn; intros H; [reflexivity|].
  rewrite (H x (or_introl eq_refl)). f_equal. auto.
Qed.

Lemma filter_twice {A : Type} (f g : A -> bool) (l : list A) :
  filter f (filter g l) = filter (fun x => g x && f x) l.
Proof.
  induction l as [|x l IH]; cbn; [reflexivity|].
  destruct (g x); cbn; [destruct (f x)|]; congruence.
Qed.

(** Deleting the datasets of a list removes the rows with their keys. *)
Lemma for_each_delete (olds : list Dataset) :
  forall db,
    for_each olds Dataset_delete db
    = (Ok tt, mkDB (filter (fun d => negb (doomed olds d)) (datasets db))
                   (next_id db)).
Proof.
  induction olds as [|o olds IH]; intros db.
  - cbn [for_each doomed existsb negb]. unfold ret.
    rewrite filter_id by reflexivity. destruct db; reflexivity.
  - cbn [for_each]. unfold bind. cbn [Dataset_delete modify].
    rewrite IH. cbn [datasets next_id]. f_equal. f_equal.
    rewrite filter_twice. apply filter_ext. intros d.
    unfold doomed. cbn [existsb]. symmetry. apply negb_orb.
Qed.

Lemma keep_last_5_run (u : string) (db : DB) :
  keep_last_5 u db = (Ok tt, evicted u db).
Proof.
  unfold keep_last_5, bind, gets, evicted.
  destruct (MAX_HISTORY <? _)%nat eqn:E.
  - apply for_each_delete.
  - apply Nat.ltb_ge in E. rewrite skipn_all2 by exact E.
    cbn [doomed existsb negb]. unfold ret.
    rewrite filter_id by reflexivity. destruct db; reflexivity.
Qed.


Variables (now : Z) (request : Request) (file : UploadedFile)
          (df : DataFrame) (db : DB).
Hypothesis Hfile : FILES_file request = Some file.
Hypothesis Hread : read_csv file = Ok df.


Lemma upload_csv_stores (avg_f avg_p avg_t : float64) :
  forallb (has_column df) required_cols = true ->
  mean (getitem df "Flowrate") = Ok avg_f ->
  mean (getitem df "Pressure") = Ok avg_p ->
  mean (getitem df "Temperature") = Ok avg_t ->
  let d := stored now request file df avg_f avg_p avg_t db in
  upload_csv now request db
  = (Ok (mkResponse HTTP_200_OK
           (Uploaded (id d) (len df) (value_counts (getitem df "Type"))
                     (data df))),
     evicted (request_user request)
             (mkDB (datasets db ++ [d]) (next_id db + 1))).
Proof.
  intros Hcols Hf Hp Ht d. unfold upload_csv. rewrite Hfile.
  unfold try_except, bind at 1, lift at 1. rewrite Hread, Hcols. cbn [negb].
  unfold bind, lift. rewrite Hf, Hp, Ht. cbn [Dataset_objects_create].
  rewrite keep_last_5_run. reflexivity.
Qed.

(** A 200 answer of [upload_csv] comes from this path only. *)
Lemma upload_csv_ok (db' : DB) (resp : Response) :
  upload_csv now request db = (Ok resp, db') ->
  status resp = HTTP_200_OK ->
  exists avg_f avg_p avg_t,
    forallb (has_column df) required_cols = true
    /\ mean (getitem df "Flowrate") = Ok avg_f
    /\ mean (getitem df "Pressure") = Ok avg_p
    /\ mean (getitem df "Temperature") = Ok avg_t.
Proof.
  intros H Hst. unfold upload_csv in H. rewrite Hfile in H.
  unfold try_except, bind at 1, lift at 1 in H. rewrite Hread in H.
  destruct (forallb (has_column df) required_cols) eqn:Hcols; cbn [negb] in H;
    [|injection H as <- <-; discriminate].
  unfold bind, lift in H.
  destruct (mean (getitem df "Flowrate")) as [avg_f|];
    [|injection H as <- <-; discriminate].
  destruct (mean (getitem df "Pressure")) as [avg_p|];
    [|injection H as <- <-; discriminate].
  destruct (mean (getitem df "Temperature")) as [avg_t|];
    [|injection H as <- <-; discriminate].
  exists avg_f, avg_p, avg_t. auto.
Qed.

End UploadCsvOutcomes.

(** ** Missing columns (C3) *)

Section MissingColumns.






End MissingColumns.

(** ** Row cleaning and empty results (C2, C4, C5) *)

Section RowCleaning.
Import ChemicalEquipment.

Lemma filter_none {A : Type} (f : A -> bool) (l : list A) :
  (forall x, In x l -> f x = false) -> filter f l = [].
Proof.
  induction l as [|x l IH]; cbn; intros H; [reflexivity|].
  rewrite (H x (or_introl eq_refl)). auto.
Qed.

Lemma row_complete_false (df : DataFrame) (subset : list string)
    (row : list cell) :
  (exists col, In col subset /\ isna (row_get df row col) = true) ->
  row_complete df subset row = false.
Proof.
  intros (col & Hcol & Hna). apply not_true_iff_false. intros H.
  unfold row_complete in H. rewrite forallb_forall in H.
  specialize (H col Hcol). rewrite Hna in H. discriminate.
Qed.

(** C4, as the code has it.  For a table with the five columns in which
    every row has a missing value in a required column (the table without
    rows included), [upload] answers 400 "No valid data found in CSV" and
    leaves the store as it was; the message differs from every
    missing-columns message, so a caller can tell the two apart. *)
Theorem C4_no_complete_row_is_an_empty_result :
  forall (now : Z) (request : Request) (csv_file : UploadedFile)
         (df : DataFrame) (db : DB),
    FILES_file request = Some csv_file ->
    endswith (name csv_file) ".csv" = true ->
    read_csv csv_file = Ok df ->
    missing_columns df = [] ->
    (forall row, In row (data df) ->
       exists col, In col required_columns
                   /\ isna (row_get df row col) = true) ->
    upload now request db
    = (Ok (mkResponse 400 (Error "No valid data found in CSV")), db)
    /\ forall missing : list string,
         "No valid data found in CSV"
         <> ("Missing required columns: "
             ++ String.concat ", " missing)%string.
Proof.
  intros now request csv_file df db Hfile Hname Hread Hmiss Hrows. split.
  - apply (upload_no_valid_data now request csv_file df db Hfile Hname Hread
             Hmiss).
    rewrite len_dropna, filter_none; [reflexivity|].
    intros row Hrow. apply row_complete_false, Hrows, Hrow.
  - intros missing. cbn. discriminate.
Qed.

Lemma C4_no_complete_row_is_an_empty_result_witness :
  upload 1 (Examples.anonymous (Examples.csv "data.csv"
                                  Examples.missing_flowrate))
         empty_db
  = (Ok (mkResponse 400 (Error "No valid data found in CSV")), empty_db).
Proof.
  apply (C4_no_complete_row_is_an_empty_result 1
           (Examples.anonymous (Examples.csv "data.csv"
                                  Examples.missing_flowrate))
           (Examples.csv "data.csv" Examples.missing_flowrate)
           Examples.missing_flowrate empty_db);
    try reflexivity.
  intros row [<-|[]]. exists "Flowrate". split; [cbn; tauto | reflexivity].
Defined.

(** C4 as stated fails when the field is present but unparseable: the one
    row of the table holds the text [abc] as its flowrate, so no row
    survives the cleaning of the specification, yet the answer is the
    catch-all error of the exception handler and not the empty-result
    error. *)
Lemma C4_unparseable_row_is_not_an_empty_result :
  missing_columns Examples.text_in_flowrate = []
  /\ Spec.cleaned_rows Examples.text_in_flowrate = []
  /\ body (fst (call (upload 1 (Examples.anonymous
                                  (Examples.csv "data.csv"
                                     Examples.text_in_flowrate)))
                     empty_db))
     = Error "Error processing CSV: Could not convert string to numeric"
  /\ body (fst (call (upload 1 (Examples.anonymous
                                  (Examples.csv "data.csv"
                                     Examples.text_in_flowrate)))
                     empty_db))
     <> Error "No valid data found in CSV".
Proof.
  repeat split. cbn. discriminate.
Qed.

(** C5 fails on the code.  The upload of a table whose only row has the
    text [abc] as flowrate is answered with 400, and the store is not what
    it was: the Dataset row written before the summary was computed is
    still there, without a summary and without Equipment rows, and the
    list view shows it. *)
Theorem C5_failed_upload_leaves_a_dataset_behind :
  let request := Examples.anonymous
                   (Examples.csv "data.csv" Examples.text_in_flowrate) in
  let partial := mkDataset 1 None "data.csv" 7 1 None in
  call (upload 7 request) empty_db
  = (mkResponse 400
       (Error "Error processing CSV: Could not convert string to numeric"),
     mkDB [partial] [] 2)
  /\ mkDB [partial] [] 2 <> empty_db
  /\ list_datasets (mkDB [partial] [] 2)
     = mkResponse 200 (DatasetList [partial]).
Proof.
  repeat split. discriminate.
Qed.

(** The same in general: whenever the summary raises, the answer is 400
    and the store has one Dataset more than before. *)
Lemma upload_not_atomic (now : Z) (request : Request) (csv_file : UploadedFile)
    (df : DataFrame) (db : DB) (e : exn) :
  FILES_file request = Some csv_file ->
  endswith (name csv_file) ".csv" = true ->
  read_csv csv_file = Ok df ->
  missing_columns df = [] ->
  len (dropna required_columns df) <> 0 ->
  summarize (dropna required_columns df) = Raise e ->
  exists resp db',
    upload now request db = (Ok resp, db')
    /\ status resp = 400
    /\ datasets db'
       = datasets db ++ [created now request csv_file df db].
Proof.
  intros Hfile Hname Hread Hmiss Hlen Hsum.
  rewrite (upload_summary_raises now request csv_file df db Hfile Hname Hread
             e Hmiss Hlen Hsum).
  eexists _, _. split; [reflexivity | split; reflexivity].
Qed.






End RowCleaning.

(** ** The type distribution, label by label *)

Section Distribution.



Lemma discovery_order_ext (labels : list cell) :
  forall seen seen',
    (forall c, In c seen <-> In c seen') ->
    Spec.discovery_order labels seen = Spec.discovery_order labels seen'.
Proof.
  induction labels as [|c labels IH]; intros seen seen' H; cbn;
    [reflexivity|].
  destruct (in_dec cell_eq_dec c seen) as [Hin|Hout];
    destruct (in_dec cell_eq_dec c seen') as [Hin'|Hout'].
  - apply IH, H.
  - exfalso. apply Hout', H, Hin.
  - exfalso. apply Hout, H, Hin'.
  - f_equal. apply IH. intros c'. cbn. rewrite H. tauto.
Qed.

Lemma count_loop_keys (s : Series) :
  forall acc,
    Forall (fun c => isna c = false) s ->
    map fst (fold_left count_step s acc)
    = map fst acc ++ Spec.discovery_order s (map fst acc).
Proof.
  induction s as [|c s IH]; intros acc Hs.
  - cbn. rewrite app_nil_r. reflexivity.
  - inversion Hs as [|c' s' Hc Hs']; subst. cbn [fold_left].
    unfold count_step at 2. rewrite Hc, (IH _ Hs').
    cbn [Spec.discovery_order].
    destruct (keys_incr c acc) as [[Hin ->]|[Hout ->]];
      destruct (in_dec cell_eq_dec c (map fst acc)) as [Hin'|Hout'];
      try contradiction; [reflexivity|].
    rewrite <- app_assoc. cbn [app]. do 2 f_equal.
    apply discovery_order_ext. intros c'. rewrite in_app_iff. cbn. tauto.
Qed.

Lemma table_of_keys (l : list (cell * nat)) :
  NoDup (map fst l) ->
  l = map (fun c => (c, count_of c l)) (map fst l).
Proof.
  intros Hnd. rewrite map_map.
  rewrite <- (map_id l) at 1. apply map_ext_in.
  intros [c n] Hin. cbn. f_equal. symmetry.
  apply count_of_present; assumption.
Qed.

(** Before sorting, the labels are in order of first appearance, each
    with its number of occurrences. *)
Lemma count_values_discovery (s : Series) :
  Forall (fun c => isna c = false) s ->
  count_values s
  = map (fun c => (c, Spec.occurrences c s)) (Spec.discovery_order s []).
Proof.
  intros Hs. destruct (count_values_spec s) as ([Hnd Hpr _] & _ & Hocc).
  rewrite (table_of_keys _ Hnd) at 1.
  unfold count_values at 2. fold count_step.
  rewrite (count_loop_keys s [] Hs). cbn [map app].
  apply map_ext_in. intros c Hc. f_equal. apply Hocc.
  assert (Hin : In c (map fst (count_values s))).
  { unfold count_values. fold count_step.
    rewrite (count_loop_keys s [] Hs). exact Hc. }
  apply in_map_iff in Hin as (p & <- & Hp).
  rewrite Forall_forall in Hpr. apply Hpr, Hp.
Qed.

End Distribution.

(** ** Exact values of binary64 numbers *)

Section ExactValues.
Local Open Scope Z_scope.








End ExactValues.

(** ** The summary of a cleaned table (C6, C7, C8) *)

Section SummaryTheorems.
Import ChemicalEquipment.









(** On the three rows with the flowrate 0.1 the values are proper and
    the exact mean is 0.1 itself, minimum and maximum alike. *)
Example three_tenths_exact_mean :
  let xs := [decimal 1 1; decimal 1 1; decimal 1 1] in
  getitem (dropna required_columns Examples.three_tenths) "Flowrate"
  = map Num xs
  /\ Forall proper xs
  /\ exact_sum xs = (3 * scaled (decimal 1 1))%Z
  /\ scaled (fmin xs) = scaled (decimal 1 1)
  /\ scaled (fmax xs) = scaled (decimal 1 1).
Proof.
  split; [vm_compute; reflexivity|].
  split; [repeat constructor|].
  repeat split; vm_compute; reflexivity.
Qed.


End SummaryTheorems.

(** ** The type distribution against the count (C6) *)

Section DistributionTotal.

Lemma value_counts_total (s : Series) :
  Forall (fun c => isna c = false) s ->
  total (value_counts s) = List.length s.
Proof.
  intros Hs. destruct (value_counts_spec s) as (_ & _ & _ & -> & _).
  rewrite filter_id; [reflexivity|].
  rewrite Forall_forall in Hs. intros c Hc. rewrite (Hs c Hc). reflexivity.
Qed.

(** C6.  Whenever [upload] answers 201, the Dataset it answers with
    carries a summary whose type distribution adds up to [total_count],
    which is also [total_records], the number of cleaned rows.  In
    [upload_csv], which does not clean, the same holds for every table
    without a missing type: the distribution of a 200 answer adds up to
    the count of the answer. *)
Theorem C6_type_distribution_sums_to_count :
  forall (now : Z) (f : UploadedFile) (df : DataFrame)
         (r1 : ChemicalEquipment.Request)
         (db1 db1' : ChemicalEquipment.DB)
         (resp1 : ChemicalEquipment.Response)
         (r2 : EquipmentApi.Request) (db2 db2' : EquipmentApi.DB)
         (resp2 : EquipmentApi.Response),
    read_csv f = Ok df ->
    ChemicalEquipment.FILES_file r1 = Some f ->
    EquipmentApi.FILES_file r2 = Some f ->
    (ChemicalEquipment.upload now r1 db1 = (Ok resp1, db1') ->
     ChemicalEquipment.status resp1 = 201 ->
     exists d s,
       ChemicalEquipment.body resp1 = ChemicalEquipment.DatasetData d
       /\ ChemicalEquipment.summary_data d = Some s
       /\ total (ChemicalEquipment.type_distribution s)
          = ChemicalEquipment.total_count s
       /\ ChemicalEquipment.total_count s
          = ChemicalEquipment.total_records d
       /\ ChemicalEquipment.total_records d
          = len (dropna ChemicalEquipment.required_columns df))
    /\ (EquipmentApi.upload_csv now r2 db2 = (Ok resp2, db2') ->
        EquipmentApi.status resp2 = 200 ->
        Forall (fun c => isna c = false) (getitem df "Type") ->
        exists i n types records,
          EquipmentApi.body resp2 = EquipmentApi.Uploaded i n types records
          /\ total types = n /\ n = len df).
Proof.
  intros now f df r1 db1 db1' resp1 r2 db2 db2' resp2 Hread Hf1 Hf2. split.
  - intros Hup Hst.
    destruct (upload_created now r1 db1 db1' resp1 Hup Hst)
      as (f' & df' & s & Hf' & _ & Hread' & _ & _ & Hsum & Hbody).
    assert (f' = f) by congruence. subst f'.
    assert (df' = df) by congruence. subst df'.
    eexists _, s. split; [exact Hbody|]. split; [reflexivity|].
    apply summarize_ok in Hsum as (fs & ps & ts & _ & _ & _ & ->).
    cbn [ChemicalEquipment.type_distribution ChemicalEquipment.total_count
         ChemicalEquipment.total_records ChemicalEquipment.set_summary_data
         created].
    split; [|split; reflexivity].
    rewrite value_counts_total; [apply getitem_length|].
    apply dropna_column. cbn. tauto.
  - intros Hup Hst Htype.
    destruct (upload_csv_ok now r2 f df db2 Hf2 Hread db2' resp2 Hup Hst)
      as (avg_f & avg_p & avg_t & Hcols & Hf & Hp & Ht).
    rewrite (upload_csv_stores now r2 f df db2 Hf2 Hread
               avg_f avg_p avg_t Hcols Hf Hp Ht) in Hup.
    injection Hup as <- _. eexists _, _, _, _. split; [reflexivity|].
    split; [|reflexivity].
    rewrite value_counts_total; [apply getitem_length | exact Htype].
Qed.

Lemma C6_type_distribution_sums_to_count_witness :
  let f := Examples.csv "data.csv" Examples.pump_valve_valve in
  let run1 := ChemicalEquipment.call
                (ChemicalEquipment.upload 1 (Examples.anonymous f))
                ChemicalEquipment.empty_db in
  exists d s,
    ChemicalEquipment.body (fst run1) = ChemicalEquipment.DatasetData d
    /\ ChemicalEquipment.summary_data d = Some s
    /\ total (ChemicalEquipment.type_distribution s)
       = ChemicalEquipment.total_count s
    /\ ChemicalEquipment.total_count s = ChemicalEquipment.total_records d
    /\ ChemicalEquipment.total_records d
       = len (dropna ChemicalEquipment.required_columns
                     Examples.pump_valve_valve).
Proof.
  intros f run1.
  pose (run2 := EquipmentApi.call
                  (EquipmentApi.upload_csv 1 (Examples.by_user "ann" f))
                  EquipmentApi.empty_db).
  apply (proj1 (C6_type_distribution_sums_to_count 1 f
                  Examples.pump_valve_valve
                  (Examples.anonymous f) ChemicalEquipment.empty_db
                  (snd run1) (fst run1)
                  (Examples.by_user "ann" f) EquipmentApi.empty_db
                  (snd run2) (fst run2)
                  eq_refl eq_refl eq_refl));
    vm_compute; reflexivity.
Defined.

End DistributionTotal.

(** ** The type series of a report (C9) *)

Section TypeSeries.
Import ChemicalEquipment.

Lemma combine_fst_snd {A B : Type} (l : list (A * B)) :
  combine (map fst l) (map snd l) = l.
Proof.
  induction l as [|[a b] l IH]; cbn; congruence.
Qed.

(** The report passes the stored distribution on as it is. *)
Lemma typeSeries_verbatim (store : DB) (dataset : Dataset) :
  typeSeries (report_of store dataset) = type_dist dataset.
Proof.
  unfold typeSeries, report_of. cbn [charts].
  destruct (type_dist dataset) as [|p td]; [reflexivity|].
  cbn [types counts]. apply combine_fst_snd.
Qed.

(** C9, as the code has it.  The type series of a report is the stored
    type distribution, entry for entry and in the stored order:
    [generate_pdf] does not reorder it.  For a Dataset made by [upload] the
    stored order is the one of [value_counts], by count with the larger
    counts first; the series holds the same (label, count) pairs as the
    list of the labels in order of first appearance, but not in that
    order. *)
Theorem C9_type_series_by_count :
  forall (now : Z) (request : Request) (db db' : DB) (resp : Response),
    upload now request db = (Ok resp, db') ->
    status resp = 201 ->
    exists d csv_file df,
      body resp = DatasetData d
      /\ FILES_file request = Some csv_file
      /\ read_csv csv_file = Ok df
      /\ let labels := getitem (dropna required_columns df) "Type" in
         (forall store, typeSeries (report_of store d) = type_dist d)
         /\ Sorted count_ge (typeSeries (report_of db' d))
         /\ Permutation
              (typeSeries (report_of db' d))
              (map (fun c => (c, Spec.occurrences c labels))
                   (Spec.discovery_order labels [])).
Proof.
  intros now request db db' resp Hup Hst.
  destruct (upload_created now request db db' resp Hup Hst)
    as (csv_file & df & s & Hfile & _ & Hread & _ & _ & Hsum & Hbody).
  eexists _, csv_file, df.
  split; [exact Hbody | split; [exact Hfile | split; [exact Hread|]]].
  intros labels.
  split; [intros store; apply typeSeries_verbatim|].
  rewrite typeSeries_verbatim.
  apply summarize_ok in Hsum as (fs & ps & ts & _ & _ & _ & ->).
  unfold type_dist.
  cbn [set_summary_data summary_data type_distribution].
  fold labels.
  destruct (value_counts_spec labels) as (_ & Hsorted & Hperm & _).
  split; [exact Hsorted|].
  rewrite <- count_values_discovery; [exact Hperm|].
  apply dropna_column. cbn. tauto.
Qed.

Lemma C9_type_series_by_count_witness :
  let request := Examples.anonymous
                   (Examples.csv "data.csv" Examples.pump_valve_valve) in
  let run := call (upload 1 request) empty_db in
  exists d csv_file df,
    body (fst run) = DatasetData d
    /\ FILES_file request = Some csv_file
    /\ read_csv csv_file = Ok df
    /\ let labels := getitem (dropna required_columns df) "Type" in
       (forall store, typeSeries (report_of store d) = type_dist d)
       /\ Sorted count_ge (typeSeries (report_of (snd run) d))
       /\ Permutation
            (typeSeries (report_of (snd run) d))
            (map (fun c => (c, Spec.occurrences c labels))
                 (Spec.discovery_order labels [])).
Proof.
  intros request run.
  apply (C9_type_series_by_count 1 request empty_db (snd run) (fst run));
    vm_compute; reflexivity.
Defined.

(** C9 as stated fails: for a pump followed by two valves, the series of
    the report starts with the valves, the more frequent label, while the
    order of first appearance starts with the pump. *)
Lemma C9_type_series_not_in_discovery_order :
  let request := Examples.anonymous
                   (Examples.csv "data.csv" Examples.pump_valve_valve) in
  let store := snd (call (upload 1 request) empty_db) in
  let labels := getitem (dropna required_columns Examples.pump_valve_valve)
                        "Type" in
  exists r,
    generate_pdf 1 store = Some r
    /\ typeSeries r = [(Str "Valve", 2); (Str "Pump", 1)]
    /\ Spec.discovery_order labels [] = [Str "Pump"; Str "Valve"]
    /\ map fst (typeSeries r) <> Spec.discovery_order labels [].
Proof.
  intros request store labels. eexists.
  split; [vm_compute; reflexivity|].
  split; [vm_compute; reflexivity|].
  split; [vm_compute; reflexivity|].
  vm_compute. discriminate.
Qed.

End TypeSeries.

(** ** Query sets ordered newest first *)

Section NewestFirst.
Variable A : Type.
Variable key : A -> Z.
Local Open Scope Z_scope.

Lemma insert_newest_perm (x : A) (l : list A) :
  Permutation (insert_newest key x l) (x :: l).
Proof.
  induction l as [|y l IH]; cbn; auto.
  destruct (key y <=? key x); auto.
  rewrite IH. apply perm_swap.
Qed.

Lemma order_by_newest_perm (l : list A) :
  Permutation (order_by_newest key l) l.
Proof.
  induction l as [|x l IH]; cbn; auto.
  rewrite insert_newest_perm. auto.
Qed.

Lemma order_by_newest_length (l : list A) :
  List.length (order_by_newest key l) = List.length l.
Proof. apply Permutation_length, order_by_newest_perm. Qed.

Lemma insert_newest_head (x : A) (l : list A) :
  Forall (fun y => key y <= key x) l -> insert_newest key x l = x :: l.
Proof.
  destruct l as [|y l]; cbn; [reflexivity|].
  intros H. inversion H as [|y' l' Hy Hl]; subst.
  apply Z.leb_le in Hy. rewrite Hy. reflexivity.
Qed.

Lemma insert_newest_sorted (x : A) (l : list A) :
  StronglySorted (newer_or_equal key) l ->
  StronglySorted (newer_or_equal key) (insert_newest key x l).
Proof.
  induction l as [|y l IH]; cbn; intros Hs.
  - repeat constructor.
  - inversion Hs as [|y' l' Hl Hy]; subst.
    destruct (key y <=? key x) eqn:E.
    + apply Z.leb_le in E. constructor; [exact Hs|].
      constructor; [exact E|].
      eapply Forall_impl; [|exact Hy]. unfold newer_or_equal. intros; lia.
    + apply Z.leb_gt in E. constructor; [apply IH, Hl|].
      eapply Permutation_Forall;
        [apply Permutation_sym, insert_newest_perm|].
      constructor; [unfold newer_or_equal; lia | exact Hy].
Qed.

Lemma order_by_newest_sorted (l : list A) :
  StronglySorted (newer_or_equal key) (order_by_newest key l).
Proof.
  induction l as [|x l IH]; cbn; [constructor|].
  apply insert_newest_sorted, IH.
Qed.



(** Filtering an ordered query set is ordering the filtered rows. *)
Lemma filter_insert_newest (p : A -> bool) (x : A) (l : list A) :
  StronglySorted (newer_or_equal key) l ->
  filter p (insert_newest key x l)
  = if p x then insert_newest key x (filter p l) else filter p l.
Proof.
  induction l as [|y l IH]; intros Hs.
  - cbn. destruct (p x); reflexivity.
  - inversion Hs as [|y' l' Hl Hy]; subst. cbn [insert_newest].
    destruct (key y <=? key x) eqn:E.
    + cbn [filter]. destruct (p x) eqn:Px; [|reflexivity].
      symmetry.
      change (if p y then y :: filter p l else filter p l)
        with (filter p (y :: l)).
      apply insert_newest_head.
      apply Z.leb_le in E.
      assert (Hall : Forall (fun z => key z <= key x) (y :: l)).
      { constructor; [exact E|].
        eapply Forall_impl; [|exact Hy]. unfold newer_or_equal.
        intros; lia. }
      rewrite Forall_forall in *. intros z Hz.
      apply filter_In in Hz as [Hz _]. auto.
    + cbn [filter]. rewrite (IH Hl).
      destruct (p y), (p x); cbn [insert_newest]; rewrite ?E; reflexivity.
Qed.

Lemma filter_order_by_newest (p : A -> bool) (l : list A) :
  filter p (order_by_newest key l) = order_by_newest key (filter p l).
Proof.
  induction l as [|x l IH]; [reflexivity|].
  cbn [order_by_newest fold_right].
  rewrite filter_insert_newest by apply order_by_newest_sorted.
  cbn [filter]. fold (order_by_newest key l). rewrite IH.
  destruct (p x); reflexivity.
Qed.

End NewestFirst.

(** ** Retention: the last five datasets of a user (C1) *)

Section Retention.
Import EquipmentApi.
Local Open Scope Z_scope.

Lemma doomed_In (olds : list Dataset) (d : Dataset) :
  doomed olds d = true <-> In (id d) (map id olds).
Proof.
  unfold doomed. rewrite existsb_exists, in_map_iff. split.
  - intros (o & Ho & E). apply Z.eqb_eq in E. eauto.
  - intros (o & E & Ho). exists o. split; [exact Ho|].
    apply Z.eqb_eq. congruence.
Qed.

Lemma NoDup_app_disjoint {A : Type} (l1 l2 : list A) (x : A) :
  NoDup (l1 ++ l2) -> In x l1 -> In x l2 -> False.
Proof.
  induction l1 as [|y l1 IH]; cbn; intros Hnd H1 H2; [exact H1|].
  inversion Hnd as [|? ? Hy Hl]; subst.
  destruct H1 as [->|H1]; [|auto].
  apply Hy, in_or_app. auto.
Qed.


Lemma NoDup_map_filter {A B : Type} (g : A -> B) (p : A -> bool)
    (l : list A) :
  NoDup (map g l) -> NoDup (map g (filter p l)).
Proof.
  induction l as [|x l IH]; cbn; intros H; [constructor|].
  inversion H as [|? ? Hx Hl]; subst.
  destruct (p x); cbn; auto.
  constructor; auto. intros Hin. apply Hx.
  apply in_map_iff in Hin as (y & E & Hy). apply filter_In in Hy as [Hy _].
  rewrite <- E. apply in_map, Hy.
Qed.


(** The history never exceeds five entries once [keep_last_5] has run,
    whatever the store held before. *)
Lemma evicted_bound (u : string) (db : DB) :
  (List.length (history u (evicted u db)) <= MAX_HISTORY)%nat.
Proof.
  unfold history, Dataset_objects_filter, evicted. cbn [datasets].
  set (S := order_by_newest uploaded_at
              (filter (fun d => String.eqb (user d) u) (datasets db))).
  set (nd := fun d => negb (doomed (skipn MAX_HISTORY S) d)).
  rewrite filter_twice.
  rewrite (filter_ext _ (fun x => (user x =? u)%string && nd x));
    [|intros x; apply andb_comm].
  rewrite <- filter_twice, <- filter_order_by_newest. fold S.
  rewrite <- (firstn_skipn MAX_HISTORY S) at 1.
  rewrite filter_app, (filter_none nd (skipn MAX_HISTORY S)), app_nil_r.
  - etransitivity; [apply filter_length_le | apply firstn_le_length].
  - intros d Hd. apply negb_false_iff, doomed_In, in_map, Hd.
Qed.

(** A 200 answer of [upload_csv]: one row is stored, then [keep_last_5]
    runs. *)
Lemma upload_csv_200 (now : Z) (request : Request) (db db' : DB)
    (resp : Response) :
  call (upload_csv now request) db = (resp, db') ->
  status resp = HTTP_200_OK ->
  exists file df avg_f avg_p avg_t,
    let d := stored now request file df avg_f avg_p avg_t db in
    FILES_file request = Some file
    /\ read_csv file = Ok df
    /\ resp = mkResponse HTTP_200_OK
                (Uploaded (id d) (len df) (value_counts (getitem df "Type"))
                          (data df))
    /\ db' = evicted (request_user request)
                     (mkDB (datasets db ++ [d]) (next_id db + 1)).
Proof.
  unfold call. destruct (upload_csv now request db) as [[r|e] db1] eqn:E;
    intros H Hst; injection H as <- <-; [|discriminate].
  destruct (FILES_file request) as [file|] eqn:Hfile;
    [|unfold upload_csv in E; rewrite Hfile in E; injection E as <- <-;
      discriminate].
  destruct (read_csv file) as [df|e] eqn:Hread;
    [|unfold upload_csv, try_except, bind, lift in E;
      rewrite Hfile, Hread in E; injection E as <- <-; discriminate].
  destruct (upload_csv_ok now request file df db Hfile Hread db1 r E Hst)
    as (avg_f & avg_p & avg_t & Hcols & Hf & Hp & Ht).
  rewrite (upload_csv_stores now request file df db Hfile Hread
             avg_f avg_p avg_t Hcols Hf Hp Ht) in E.
  injection E as <- <-.
  exists file, df, avg_f, avg_p, avg_t. cbn zeta. auto.
Qed.







(** Whatever the store held and whatever the clock read, the history of
    the uploading user has at most five entries once a successful upload
    has returned. *)
Lemma upload_csv_bounds_history (now : Z) (request : Request) (db db' : DB)
    (resp : Response) :
  call (upload_csv now request) db = (resp, db') ->
  status resp = HTTP_200_OK ->
  (List.length (history (request_user request) db') <= MAX_HISTORY)%nat.
Proof.
  intros Hcall Hst.
  destruct (upload_csv_200 now request db db' resp Hcall Hst)
    as (file & df & avg_f & avg_p & avg_t & _ & _ & _ & ->).
  apply evicted_bound.
Qed.

Lemma find_absent {A : Type} (f : A -> bool) (l : list A) :
  (forall x, In x l -> f x = false) -> find f l = None.
Proof.
  induction l as [|x l IH]; cbn; intros H; [reflexivity|].
  rewrite (H x (or_introl eq_refl)). auto.
Qed.



(** The example of the specification: after six uploads the list has
    five entries, the first dataset is not among them and its key is
    answered with 404. *)
Example six_uploads_keep_five :
  let db := final_store (run_uploads Examples.six_uploads empty_db) empty_db in
  match body (get_history "ann" db) with
  | History l => map id l = [6; 5; 4; 3; 2]
  | _ => False
  end
  /\ status (generate_pdf "ann" 1 db) = HTTP_404_NOT_FOUND
  /\ status (generate_pdf "ann" 2 db) = HTTP_200_OK.
Proof. vm_compute. repeat split. Qed.

End Retention.

(** ** More on [upload_csv], [get_history] and [generate_pdf] *)

Section UploadCsvMore.
Import EquipmentApi.
Local Open Scope Z_scope.

Lemma firstn_In {A : Type} (n : nat) (l : list A) (x : A) :
  In x (firstn n l) -> In x l.
Proof.
  intros H. rewrite <- (firstn_skipn n l). apply in_or_app. auto.
Qed.

Lemma skipn_In {A : Type} (n : nat) (l : list A) (x : A) :
  In x (skipn n l) -> In x l.
Proof.
  intros H. rewrite <- (firstn_skipn n l). apply in_or_app. auto.
Qed.

(** The answers of [upload_csv]: the store changes with a 200 only. *)
Lemma upload_csv_cases :
  forall (now : Z) (request : Request) (db : DB),
    exists resp db',
      upload_csv now request db = (Ok resp, db')
      /\ (status resp = HTTP_200_OK \/ status resp = HTTP_400_BAD_REQUEST)
      /\ (status resp = HTTP_400_BAD_REQUEST -> db' = db).
Proof.
  intros now request db. unfold upload_csv.
  destruct (FILES_file request) as [file|];
    [|eexists _, _; split; [reflexivity | split; [right|]; reflexivity]].
  unfold try_except, bind at 1, lift at 1.
  destruct (read_csv file) as [df|e];
    [|eexists _, _; split; [reflexivity | split; [right|]; reflexivity]].
  destruct (forallb (has_column df) required_cols); cbn [negb];
    [|eexists _, _; split; [reflexivity | split; [right|]; reflexivity]].
  unfold bind, lift.
  destruct (mean (getitem df "Flowrate")) as [avg_f|];
    [|eexists _, _; split; [reflexivity | split; [right|]; reflexivity]].
  destruct (mean (getitem df "Pressure")) as [avg_p|];
    [|eexists _, _; split; [reflexivity | split; [right|]; reflexivity]].
  destruct (mean (getitem df "Temperature")) as [avg_t|];
    [|eexists _, _; split; [reflexivity | split; [right|]; reflexivity]].
  cbn [Dataset_objects_create]. rewrite keep_last_5_run.
  eexists _, _. split; [reflexivity | split; [left; reflexivity|]].
  cbn. discriminate.
Qed.


(** X2.  A file that [pd.read_csv] cannot read is answered with 400 by both
    views, with the message of the parser ([upload] puts "Error processing
    CSV: " before it), and the stores are left as they were. *)
Theorem unreadable_file_is_rejected :
  forall (now : Z) (f : UploadedFile) (e : exn)
         (r1 : ChemicalEquipment.Request) (db1 : ChemicalEquipment.DB)
         (r2 : Request) (db2 : DB),
    read_csv f = Raise e ->
    ChemicalEquipment.FILES_file r1 = Some f ->
    FILES_file r2 = Some f ->
    endswith (name f) ".csv" = true ->
    ChemicalEquipment.upload now r1 db1
    = (Ok (ChemicalEquipment.mkResponse 400
             (ChemicalEquipment.Error
                ("Error processing CSV: " ++ str e)%string)),
       db1)
    /\ upload_csv now r2 db2
       = (Ok (mkResponse 400 (Error (str e))), db2).
Proof.
  intros now f e r1 db1 r2 db2 Hread Hf1 Hf2 Hname. split.
  - unfold ChemicalEquipment.upload. rewrite Hf1, Hname. cbn [negb].
    unfold try_except, bind, lift. rewrite Hread. reflexivity.
  - unfold upload_csv. rewrite Hf2.
    unfold try_except, bind, lift. rewrite Hread. reflexivity.
Qed.

Lemma unreadable_file_is_rejected_witness :
  let f := mkFile "data.csv"
             (Raise (ParserError "Error tokenizing data")) in
  ChemicalEquipment.upload 1 (Examples.anonymous f) ChemicalEquipment.empty_db
  = (Ok (ChemicalEquipment.mkResponse 400
           (ChemicalEquipment.Error
              "Error processing CSV: Error tokenizing data")),
     ChemicalEquipment.empty_db)
  /\ upload_csv 1 (Examples.by_user "ann" f) empty_db
     = (Ok (mkResponse 400 (Error "Error tokenizing data")), empty_db).
Proof.
  intros f.
  apply (unreadable_file_is_rejected 1 f
           (ParserError "Error tokenizing data")
           (Examples.anonymous f) ChemicalEquipment.empty_db
           (Examples.by_user "ann" f) empty_db);
    reflexivity.
Defined.


Lemma same_key_same_row (l : list Dataset) (a b : Dataset) :
  NoDup (map id l) -> In a l -> In b l -> id a = id b -> a = b.
Proof.
  induction l as [|x l IH]; cbn; intros Hnd Ha Hb E; [destruct Ha|].
  inversion Hnd as [|? ? Hx Hl]; subst.
  destruct Ha as [->|Ha], Hb as [->|Hb]; auto.
  - exfalso. apply Hx. rewrite E. apply in_map, Hb.
  - exfalso. apply Hx. rewrite <- E. apply in_map, Ha.
Qed.

(** [Dataset.objects.get(id=..., user=...)] on a table with unique keys
    finds a stored dataset exactly for its owner. *)
Lemma get_own_dataset (u : string) (d : Dataset) (db : DB) :
  NoDup (map id (datasets db)) -> In d (datasets db) ->
  Dataset_objects_get (id d) u db
  = if String.eqb (user d) u then Some d else None.
Proof.
  intros Hnd Hd. unfold Dataset_objects_get.
  destruct (String.eqb (user d) u) eqn:Hu.
  - destruct (find _ (datasets db)) as [r|] eqn:F.
    + apply find_some in F as [Hr Hm].
      apply andb_true_iff in Hm as [Hid _]. apply Z.eqb_eq in Hid.
      f_equal. apply (same_key_same_row (datasets db)); assumption.
    + apply (find_none _ _ F) in Hd. rewrite Z.eqb_refl, Hu in Hd.
      discriminate.
  - apply find_absent. intros r Hr. apply not_true_iff_false. intros Hm.
    apply andb_true_iff in Hm as [Hid Hown]. apply Z.eqb_eq in Hid.
    assert (r = d) by (apply (same_key_same_row (datasets db)); assumption).
    subst r. rewrite Hown in Hu. discriminate.
Qed.

(** X3.  On a store with unique primary keys, [generate_pdf] serves a stored
    dataset to its owner and answers 404 to everybody else. *)
Theorem generate_pdf_serves_the_owner_only :
  forall (u : string) (d : Dataset) (db : DB),
    NoDup (map id (datasets db)) ->
    In d (datasets db) ->
    (user d = u -> generate_pdf u (id d) db = mkResponse 200 (Pdf d))
    /\ (user d <> u ->
        generate_pdf u (id d) db
        = mkResponse 404 (Error "Dataset not found")).
Proof.
  intros u d db Hnd Hd. unfold generate_pdf.
  rewrite (get_own_dataset u d db Hnd Hd). split; intros Hu.
  - apply String.eqb_eq in Hu. rewrite Hu. reflexivity.
  - apply String.eqb_neq in Hu. rewrite Hu. reflexivity.
Qed.

Lemma generate_pdf_serves_the_owner_only_witness :
  generate_pdf "bob" 2 Stores.shared
  = mkResponse 200 (Pdf (Stores.row 2 "bob" 11))
  /\ generate_pdf "ann" 2 Stores.shared
     = mkResponse 404 (Error "Dataset not found").
Proof.
  assert (Hnd : NoDup (map id (datasets Stores.shared)))
    by (cbn; repeat constructor; cbn; intuition discriminate).
  assert (Hin : In (Stores.row 2 "bob" 11) (datasets Stores.shared))
    by (cbn; auto).
  split.
  - apply (proj1 (generate_pdf_serves_the_owner_only "bob"
                    (Stores.row 2 "bob" 11) Stores.shared Hnd Hin)).
    reflexivity.
  - apply (proj2 (generate_pdf_serves_the_owner_only "ann"
                    (Stores.row 2 "bob" 11) Stores.shared Hnd Hin)).
    discriminate.
Defined.

(** X4.  [get_history] answers with at most five datasets, all stored and all
    of the asking user, ordered by upload time with the newest first,
    whatever the store holds. *)
Theorem get_history_shows_own_newest_first :
  forall (u : string) (db : DB),
    exists l,
      get_history u db = mkResponse 200 (History l)
      /\ (List.length l <= MAX_HISTORY)%nat
      /\ Forall (fun d => In d (datasets db) /\ user d = u) l
      /\ StronglySorted (newer_or_equal uploaded_at) l.
Proof.
  intros u db. eexists. split; [reflexivity|].
  split; [apply firstn_le_length|]. split.
  - apply Forall_forall. intros d Hd. apply firstn_In in Hd.
    unfold Dataset_objects_filter in Hd.
    apply (Permutation_in _ (order_by_newest_perm _ uploaded_at _)) in Hd.
    apply filter_In in Hd as [Hd Hu]. apply String.eqb_eq in Hu. auto.
  - unfold Dataset_objects_filter.
    pose proof (order_by_newest_sorted _ uploaded_at
                  (filter (fun d => String.eqb (user d) u) (datasets db)))
      as Hs.
    rewrite <- (firstn_skipn MAX_HISTORY (order_by_newest _ _)) in Hs.
    revert Hs. generalize (skipn MAX_HISTORY
      (order_by_newest uploaded_at
         (filter (fun d => String.eqb (user d) u) (datasets db)))).
    induction (firstn MAX_HISTORY _) as [|x l IH]; intros rest Hs;
      [constructor|].
    cbn in Hs. inversion Hs as [|? ? Hl Hx]; subst.
    constructor; [eapply IH; eassumption|].
    apply Forall_app in Hx as [Hx _]. exact Hx.
Qed.

(** X5.  An upload of one user leaves the datasets of every other user in
    place: their rows, their history, in the same order. *)
Theorem upload_csv_leaves_other_users_alone :
  forall (now : Z) (request : Request) (v : string) (db db' : DB)
         (resp : Response),
    wf db ->
    request_user request <> v ->
    call (upload_csv now request) db = (resp, db') ->
    filter (owned_by v) (datasets db') = filter (owned_by v) (datasets db)
    /\ get_history v db' = get_history v db.
Proof.
  intros now request v db db' resp [Hnd Hlt] Hv Hcall.
  assert (Hrows : filter (owned_by v) (datasets db')
                  = filter (owned_by v) (datasets db)).
  { destruct (upload_csv_cases now request db)
      as (r & db1 & Hup & Hst & Hatomic).
    unfold call in Hcall. rewrite Hup in Hcall. injection Hcall as <- <-.
    destruct Hst as [Hst|Hst]; [|rewrite (Hatomic Hst); reflexivity].
    destruct (upload_csv_200 now request db db1 r) as
      (file & df & avg_f & avg_p & avg_t & _ & _ & _ & ->);
      [unfold call; rewrite Hup; reflexivity | exact Hst |].
    set (d := stored now request file df avg_f avg_p avg_t db).
    set (db2 := mkDB (datasets db ++ [d]) (next_id db + 1)).
    assert (Hnd2 : NoDup (map id (datasets db2))).
    { cbn [datasets db2]. rewrite map_app. apply NoDup_app; auto.
      - repeat constructor. intros [].
      - intros i Hi [<-|[]]. apply in_map_iff in Hi as (d' & E & Hd').
        rewrite Forall_forall in Hlt. specialize (Hlt d' Hd').
        cbn in E. lia. }
    cbn [evicted datasets]. rewrite filter_twice.
    transitivity (filter (owned_by v) (datasets db2)).
    - apply filter_ext_in. intros r0 Hr0.
      destruct (owned_by v r0) eqn:Hown; [|apply andb_false_r].
      rewrite andb_true_r. apply negb_true_iff, not_true_iff_false.
      intros Hdoomed. apply doomed_In in Hdoomed.
      apply in_map_iff in Hdoomed as (o & E & Ho).
      apply skipn_In in Ho. unfold Dataset_objects_filter in Ho.
      apply (Permutation_in _ (order_by_newest_perm _ uploaded_at _)) in Ho.
      apply filter_In in Ho as [Ho Hou].
      assert (o = r0)
        by (apply (same_key_same_row (datasets db2)); assumption).
      subst o. unfold owned_by in Hown.
      apply String.eqb_eq in Hown, Hou. congruence.
    - cbn [datasets db2]. rewrite filter_app. cbn [filter].
      unfold owned_by at 2. cbn [user d stored].
      apply String.eqb_neq in Hv. rewrite Hv. apply app_nil_r. }
  split; [exact Hrows|].
  unfold get_history, Dataset_objects_filter.
  change (fun d => String.eqb (user d) v) with (owned_by v).
  rewrite Hrows. reflexivity.
Qed.

Lemma upload_csv_leaves_other_users_alone_witness :
  let request := Examples.by_user "ann"
                   (Examples.csv "a.csv" Examples.two_rows) in
  let run := call (upload_csv 20 request) Stores.shared in
  filter (owned_by "bob") (datasets (snd run))
  = filter (owned_by "bob") (datasets Stores.shared)
  /\ get_history "bob" (snd run) = get_history "bob" Stores.shared.
Proof.
  intros request run.
  apply (upload_csv_leaves_other_users_alone 20 request "bob" Stores.shared
           (snd run) (fst run)).
  - split; cbn; repeat constructor; cbn; try lia; intuition discriminate.
  - discriminate.
  - vm_compute. reflexivity.
Defined.



(** X7.  However many datasets of the user the store held, and whatever the
    clock read, a 200 answer of [upload_csv] leaves at most five of them,
    and [get_history] shows every one that is left. *)
Theorem upload_csv_history_never_exceeds_five :
  forall (now : Z) (request : Request) (db db' : DB) (resp : Response),
    call (upload_csv now request) db = (resp, db') ->
    status resp = HTTP_200_OK ->
    (List.length (history (request_user request) db') <= MAX_HISTORY)%nat
    /\ get_history (request_user request) db'
       = mkResponse HTTP_200_OK (History (history (request_user request) db')).
Proof.
  intros now request db db' resp Hcall Hst.
  destruct (upload_csv_200 now request db db' resp Hcall Hst)
    as (file & df & avg_f & avg_p & avg_t & _ & _ & _ & ->).
  match goal with
  | |- context [evicted ?u ?d] => pose proof (evicted_bound u d) as Hb
  end.
  split; [exact Hb|].
  unfold get_history.
  match goal with
  | |- context [firstn MAX_HISTORY (Dataset_objects_filter ?u ?d)] =>
      fold (history u d)
  end.
  rewrite firstn_all2 by exact Hb. reflexivity.
Qed.

Lemma upload_csv_history_never_exceeds_five_witness :
  let request := Examples.by_user "ann"
                   (Examples.csv "a.csv" Examples.two_rows) in
  let db' := snd (call (upload_csv 20 request) Stores.crowded) in
  (List.length (history "ann" db') <= MAX_HISTORY)%nat
  /\ get_history "ann" db'
     = mkResponse HTTP_200_OK (History (history "ann" db')).
Proof.
  intros request db'.
  apply (upload_csv_history_never_exceeds_five 20 request Stores.crowded db'
           (fst (call (upload_csv 20 request) Stores.crowded)));
    vm_compute; reflexivity.
Defined.

End UploadCsvMore.

(** ** More on [DatasetViewSet.upload], [list] and [generate_pdf] *)

Section UploadMore.
Import ChemicalEquipment.
Local Open Scope Z_scope.

(** Deleting the datasets of a list removes the rows with their keys and
    the Equipment rows that belong to them. *)
Lemma for_each_delete_cascade (olds : list Dataset) :
  forall db,
    for_each olds Dataset_delete db
    = (Ok tt,
       mkDB (filter (fun d => negb (stale olds d)) (datasets db))
            (filter (fun e => negb (orphaned olds e)) (equipment_records db))
            (next_id db)).
Proof.
  induction olds as [|o olds IH]; intros db.
  - cbn [for_each stale orphaned existsb negb]. unfold ret.
    rewrite !filter_id by reflexivity. destruct db; reflexivity.
  - cbn [for_each]. unfold bind. cbn [Dataset_delete modify].
    rewrite IH. cbn [datasets equipment_records next_id]. f_equal. f_equal.
    + rewrite filter_twice. apply filter_ext. intros d.
      unfold stale. cbn [existsb]. symmetry. apply negb_orb.
    + rewrite filter_twice. apply filter_ext. intros e.
      unfold orphaned. cbn [existsb]. symmetry. apply negb_orb.
Qed.

(** Every Equipment row built for a dataset carries its key. *)
Lemma equipment_rows_key (df : DataFrame) (d : Dataset) :
  forall rows eqs,
    rmap (equipment_of_row df d) rows = Ok eqs ->
    Forall (fun e => dataset_id e = id d) eqs.
Proof.
  induction rows as [|row rows IH]; cbn; intros eqs H.
  - injection H as <-. constructor.
  - unfold rbind in H.
    destruct (equipment_of_row df d row) as [e|] eqn:E; [|discriminate].
    destruct (rmap (equipment_of_row df d) rows) as [es|]; [|discriminate].
    injection H as <-. constructor; [|apply IH; reflexivity].
    unfold equipment_of_row, rbind in E.
    destruct (to_float _); [|discriminate].
    destruct (to_float _); [|discriminate].
    destruct (to_float _); [|discriminate].
    injection E as <-. reflexivity.
Qed.

Section Path.
Variables (now : Z) (request : Request) (csv_file : UploadedFile)
          (df : DataFrame) (db : DB).
Hypothesis Hfile : FILES_file request = Some csv_file.
Hypothesis Hname : endswith (name csv_file) ".csv" = true.
Hypothesis Hread : read_csv csv_file = Ok df.

(** The store a 201 answer leaves. *)
Lemma upload_201_store (s : Summary) (eqs : list Equipment) :
  missing_columns df = [] ->
  len (dropna required_columns df) <> 0%nat ->
  summarize (dropna required_columns df) = Ok s ->
  let d := set_summary_data (created now request csv_file df db) s in
  rmap (equipment_of_row (dropna required_columns df) d)
       (data (dropna required_columns df)) = Ok eqs ->
  upload now request db
  = (Ok (mkResponse HTTP_201_CREATED (DatasetData d)),
     pruned (written d eqs (db_created now request csv_file df db))).
Proof.
  intros Hmiss Hlen Hsum d Heqs. unfold upload. rewrite Hfile, Hname.
  cbn [negb]. unfold try_except, bind, lift. rewrite Hread, Hmiss.
  apply Nat.eqb_neq in Hlen. rewrite Hlen.
  cbn [Dataset_objects_create]. rewrite Hsum.
  unfold Dataset_save, Equipment_objects_bulk_create, modify, gets, ret.
  fold (created now request csv_file df db). fold d. rewrite Heqs.
  rewrite for_each_delete_cascade. reflexivity.
Qed.

End Path.

(** A 201 answer of [upload]: what was read, what is answered and the
    store that is left. *)
Lemma upload_201 (now : Z) (request : Request) (db db' : DB)
    (resp : Response) :
  upload now request db = (Ok resp, db') ->
  status resp = HTTP_201_CREATED ->
  exists csv_file df s eqs,
    let df_clean := dropna required_columns df in
    let d := set_summary_data (created now request csv_file df db) s in
    FILES_file request = Some csv_file
    /\ read_csv csv_file = Ok df
    /\ len df_clean <> 0%nat
    /\ summarize df_clean = Ok s
    /\ rmap (equipment_of_row df_clean d) (data df_clean) = Ok eqs
    /\ resp = mkResponse HTTP_201_CREATED (DatasetData d)
    /\ db' = pruned (written d eqs (db_created now request csv_file df db)).
Proof.
  intros Hup Hst.
  destruct (upload_created now request db db' resp Hup Hst)
    as (csv_file & df & s & Hfile & Hname & Hread & Hmiss & Hlen & Hsum & _).
  destruct (equipment_rows_total (dropna required_columns df) s
              (set_summary_data (created now request csv_file df db) s) Hsum)
    as (eqs & Heqs & _).
  rewrite (upload_201_store now request csv_file df db Hfile Hname Hread
             s eqs Hmiss Hlen Hsum Heqs) in Hup.
  injection Hup as <- <-.
  exists csv_file, df, s, eqs. cbn zeta. repeat split; assumption.
Qed.

(** The answers of [upload] and the stores they leave. *)
Lemma upload_cases :
  forall (now : Z) (request : Request) (db : DB),
    exists resp db',
      upload now request db = (Ok resp, db')
      /\ (status resp = HTTP_201_CREATED
          \/ status resp = HTTP_400_BAD_REQUEST)
      /\ (status resp = HTTP_400_BAD_REQUEST ->
          db' = db
          \/ exists csv_file df e,
               FILES_file request = Some csv_file
               /\ read_csv csv_file = Ok df
               /\ summarize (dropna required_columns df) = Raise e
               /\ db' = db_created now request csv_file df db).
Proof.
  intros now request db.
  destruct (FILES_file request) as [csv_file|] eqn:Hfile;
    [|unfold upload; rewrite Hfile; eexists _, _;
      split; [reflexivity | split; [right; reflexivity | left; reflexivity]]].
  destruct (endswith (name csv_file) ".csv") eqn:Hname;
    [|unfold upload; rewrite Hfile, Hname; eexists _, _;
      split; [reflexivity | split; [right; reflexivity | left; reflexivity]]].
  destruct (read_csv csv_file) as [df|e] eqn:Hread;
    [|unfold upload, try_except, bind, lift; rewrite Hfile, Hname, Hread;
      eexists _, _;
      split; [reflexivity | split; [right; reflexivity | left; reflexivity]]].
  destruct (missing_columns df) as [|c cs] eqn:Hmiss;
    [|rewrite (upload_missing_columns now request csv_file df db
                 Hfile Hname Hread) by congruence;
      eexists _, _;
      split; [reflexivity | split; [right; reflexivity | left; reflexivity]]].
  destruct (Nat.eq_dec (len (dropna required_columns df)) 0) as [Hlen|Hlen];
    [rewrite (upload_no_valid_data now request csv_file df db
                Hfile Hname Hread Hmiss Hlen);
     eexists _, _;
     split; [reflexivity | split; [right; reflexivity | left; reflexivity]]|].
  destruct (summarize (dropna required_columns df)) as [s|e] eqn:Hsum.
  - destruct (upload_summary_ok now request csv_file df db Hfile Hname Hread
                s Hmiss Hlen Hsum) as [db' ->].
    eexists _, _.
    split; [reflexivity | split; [left; reflexivity | discriminate]].
  - rewrite (upload_summary_raises now request csv_file df db
               Hfile Hname Hread e Hmiss Hlen Hsum).
    eexists _, _. split; [reflexivity | split; [right; reflexivity|]].
    intros _. right. exists csv_file, df, e. auto.
Qed.

(** X8.  [upload] lets no exception out: the framework never has to answer
    500, the status is 201 or 400.  After a 400 the store is as it was,
    except when the summary raised: then the Dataset row created before is
    left in it, and nothing else. *)
Theorem upload_answers_201_or_400 :
  forall (now : Z) (request : Request) (db : DB),
    let resp := fst (call (upload now request) db) in
    let db' := snd (call (upload now request) db) in
    (status resp = HTTP_201_CREATED \/ status resp = HTTP_400_BAD_REQUEST)
    /\ (status resp = HTTP_400_BAD_REQUEST ->
        db' = db
        \/ exists csv_file df e,
             FILES_file request = Some csv_file
             /\ read_csv csv_file = Ok df
             /\ summarize (dropna required_columns df) = Raise e
             /\ db' = db_created now request csv_file df db).
Proof.
  intros now request db.
  destruct (upload_cases now request db) as (r & db1 & Hup & Hst & Hdb).
  unfold call. rewrite Hup. cbn [fst snd]. split; assumption.
Qed.

Lemma filter_perm_length {A : Type} (p : A -> bool) (l l' : list A) :
  Permutation l l' ->
  List.length (filter p l) = List.length (filter p l').
Proof.
  induction 1 as [|x l l' _ IH|x y l|l l' l'' _ IH1 _ IH2]; cbn.
  - reflexivity.
  - destruct (p x); cbn; congruence.
  - destruct (p x), (p y); reflexivity.
  - congruence.
Qed.

Lemma stale_In (olds : list Dataset) (d : Dataset) :
  stale olds d = true <-> In (id d) (map id olds).
Proof.
  unfold stale. rewrite existsb_exists, in_map_iff. split.
  - intros (o & Ho & E). apply Z.eqb_eq in E. eauto.
  - intros (o & E & Ho). exists o. split; [exact Ho|].
    apply Z.eqb_eq. congruence.
Qed.

Lemma orphaned_In (olds : list Dataset) (e : Equipment) :
  orphaned olds e = true <-> In (dataset_id e) (map id olds).
Proof.
  unfold orphaned. rewrite existsb_exists, in_map_iff. split.
  - intros (o & Ho & E). apply Z.eqb_eq in E. eauto.
  - intros (o & E & Ho). exists o. split; [exact Ho|].
    apply Z.eqb_eq. congruence.
Qed.

Lemma Dataset_objects_all_perm (db : DB) :
  Permutation (Dataset_objects_all db) (datasets db).
Proof.
  unfold Dataset_objects_all.
  rewrite order_by_newest_perm. symmetry. apply Permutation_rev.
Qed.

(** The loop over [Dataset.objects.all()[5:]] leaves at most five
    datasets, whatever the store held. *)
Lemma pruned_bound (db : DB) :
  (List.length (datasets (pruned db)) <= 5)%nat.
Proof.
  unfold pruned. cbn [datasets].
  set (S := Dataset_objects_all db).
  set (fresh := fun d => negb (stale (skipn 5 S) d)).
  rewrite (filter_perm_length fresh (datasets db) S)
    by (symmetry; apply Dataset_objects_all_perm).
  rewrite <- (firstn_skipn 5 S) at 1.
  rewrite filter_app, (filter_none fresh (skipn 5 S)), app_nil_r.
  - etransitivity; [apply filter_length_le | apply firstn_le_length].
  - intros d Hd. apply negb_false_iff, stale_In, in_map, Hd.
Qed.

(** X9.  Whatever the store held before, a 201 answer of [upload] leaves at
    most five datasets in it, and [list] shows every one of them. *)
Theorem upload_keeps_five_datasets :
  forall (now : Z) (request : Request) (db db' : DB) (resp : Response),
    upload now request db = (Ok resp, db') ->
    status resp = HTTP_201_CREATED ->
    (List.length (datasets db') <= 5)%nat
    /\ exists shown,
         list_datasets db' = mkResponse HTTP_200_OK (DatasetList shown)
         /\ Permutation shown (datasets db').
Proof.
  intros now request db db' resp Hup Hst.
  destruct (upload_201 now request db db' resp Hup Hst)
    as (csv_file & df & s & eqs & _ & _ & _ & _ & _ & _ & ->).
  match goal with |- context [pruned ?x] => set (db2 := x) end.
  pose proof (pruned_bound db2) as Hb. split; [exact Hb|].
  exists (Dataset_objects_all (pruned db2)). split.
  - unfold list_datasets. rewrite firstn_all2; [reflexivity|].
    rewrite (Permutation_length (Dataset_objects_all_perm _)). exact Hb.
  - apply Dataset_objects_all_perm.
Qed.

Lemma upload_keeps_five_datasets_witness :
  let request := Examples.anonymous (Examples.csv "a.csv" Examples.two_rows) in
  let db' := snd (upload 20 request ChemStores.crowded) in
  (List.length (datasets db') <= 5)%nat
  /\ exists shown,
       list_datasets db' = mkResponse HTTP_200_OK (DatasetList shown)
       /\ Permutation shown (datasets db').
Proof.
  intros request db'.
  destruct (upload 20 request ChemStores.crowded) as [r db1] eqn:E.
  destruct r as [resp|e]; [|vm_compute in E; discriminate].
  apply (upload_keeps_five_datasets 20 request ChemStores.crowded db' resp).
  - unfold db'. exact E.
  - vm_compute in E. injection E as <- _. reflexivity.
Defined.

(** X10.  [list] answers with at most five datasets, all of them stored,
    ordered by creation time with the newest first, whatever the store
    holds. *)
Theorem list_shows_newest_first :
  forall db : DB,
    exists shown,
      list_datasets db = mkResponse HTTP_200_OK (DatasetList shown)
      /\ (List.length shown <= 5)%nat
      /\ Forall (fun d => In d (datasets db)) shown
      /\ StronglySorted (newer_or_equal uploaded_at) shown
      /\ (forall d, In d (datasets db) -> ~ In d shown ->
          Forall (fun d' => uploaded_at d <= uploaded_at d') shown).
Proof.
  intros db. eexists. split; [reflexivity|].
  split; [apply firstn_le_length|].
  pose proof (order_by_newest_sorted _ uploaded_at (rev (datasets db)))
    as Hs.
  fold (Dataset_objects_all db) in Hs.
  rewrite <- (firstn_skipn 5 (Dataset_objects_all db)) in Hs.
  split; [|split].
  - apply Forall_forall. intros d Hd. apply firstn_In in Hd.
    apply (Permutation_in _ (Dataset_objects_all_perm db)), Hd.
  - revert Hs. generalize (skipn 5 (Dataset_objects_all db)).
    induction (firstn 5 (Dataset_objects_all db)) as [|x l IH];
      intros rest Hs; [constructor|].
    cbn in Hs. inversion Hs as [|? ? Hl Hx]; subst.
    constructor; [eapply IH; eassumption|].
    apply Forall_app in Hx as [Hx _]. exact Hx.
  - intros d Hd Hout.
    assert (Hrest : In d (skipn 5 (Dataset_objects_all db))).
    { apply (Permutation_in _
               (Permutation_sym (Dataset_objects_all_perm db))) in Hd.
      rewrite <- (firstn_skipn 5 (Dataset_objects_all db)) in Hd.
      apply in_app_or in Hd as [Hd|Hd]; [contradiction | exact Hd]. }
    revert Hs Hrest. generalize (skipn 5 (Dataset_objects_all db)).
    clear Hout.
    induction (firstn 5 (Dataset_objects_all db)) as [|x l IH];
      intros rest Hs Hrest; [constructor|].
    cbn in Hs. inversion Hs as [|? ? Hl Hx]; subst.
    constructor; [|eapply IH; eassumption].
    rewrite Forall_forall in Hx. apply (Hx d). apply in_or_app. auto.
Qed.

Lemma keys_unchanged (d : Dataset) (l : list Dataset) :
  Forall (fun d' => id d' < id d) l ->
  map (fun d' => if id d' =? id d then d else d') l = l.
Proof.
  induction 1 as [|x l Hx _ IH]; cbn; [reflexivity|].
  rewrite IH. destruct (id x =? id d) eqn:E; [|reflexivity].
  apply Z.eqb_eq in E. lia.
Qed.


(** With keys below the next key, [save] writes the summary into the row
    just created and into no other. *)
Lemma written_created (now : Z) (request : Request) (csv_file : UploadedFile)
    (df : DataFrame) (db : DB) (s : Summary) (eqs : list Equipment) :
  Forall (fun d => id d < next_id db) (datasets db) ->
  written (set_summary_data (created now request csv_file df db) s) eqs
          (db_created now request csv_file df db)
  = mkDB (datasets db
          ++ [set_summary_data (created now request csv_file df db) s])
         (equipment_records db ++ eqs) (next_id db + 1).
Proof.
  intros Hlt. unfold written, db_created.
  cbn [datasets equipment_records next_id]. f_equal.
  rewrite map_app. cbn [map]. rewrite Z.eqb_refl. f_equal.
  apply keys_unchanged. exact Hlt.
Qed.

Lemma sound_stored (db : DB) (d : Dataset) (eqs : list Equipment) :
  sound db -> id d = next_id db ->
  Forall (fun e => dataset_id e = id d) eqs ->
  sound (mkDB (datasets db ++ [d]) (equipment_records db ++ eqs)
              (next_id db + 1)).
Proof.
  intros (Hnd & Hlt & Href) Hid Heqs. split; [|split];
    cbn [datasets equipment_records next_id].
  - rewrite map_app. apply NoDup_app; auto.
    + repeat constructor. intros [].
    + intros i Hi [<-|[]]. apply in_map_iff in Hi as (d' & E & Hd').
      rewrite Forall_forall in Hlt. specialize (Hlt d' Hd'). lia.
  - apply Forall_app. split.
    + eapply Forall_impl; [|exact Hlt]. cbn. intros; lia.
    + repeat constructor. lia.
  - apply Forall_app. split.
    + eapply Forall_impl; [|exact Href]. cbn. intros e He.
      rewrite map_app. apply in_or_app. auto.
    + eapply Forall_impl; [|exact Heqs]. cbn. intros e He.
      rewrite map_app, He. apply in_or_app. right. left. reflexivity.
Qed.

Lemma sound_pruned (db : DB) : sound db -> sound (pruned db).
Proof.
  intros (Hnd & Hlt & Href). unfold pruned.
  set (olds := skipn 5 (Dataset_objects_all db)).
  split; [|split]; cbn [datasets equipment_records next_id].
  - apply NoDup_map_filter, Hnd.
  - apply Forall_forall. intros d Hd. apply filter_In in Hd as [Hd _].
    rewrite Forall_forall in Hlt. auto.
  - apply Forall_forall. intros e He. apply filter_In in He as [He Hkeep].
    rewrite Forall_forall in Href. specialize (Href e He).
    apply in_map_iff in Href as (d & E & Hd).
    apply in_map_iff. exists d. split; [exact E|].
    apply filter_In. split; [exact Hd|].
    apply negb_true_iff, not_true_iff_false. intros Hst.
    apply negb_true_iff, not_true_iff_false in Hkeep. apply Hkeep.
    apply orphaned_In. rewrite <- E. apply stale_In, Hst.
Qed.

(** Soundness of a store written out in full. *)
Ltac absent :=
  let H := fresh in
  intros H; cbn in H; repeat (destruct H as [H|H]; [discriminate H|]);
  exact H.

Ltac present := cbn; repeat (first [left; reflexivity | right]).

Ltac concrete_store :=
  split; [|split]; cbn;
  [ repeat (constructor; [absent|]); constructor
  | repeat (constructor; [cbn; lia|]); constructor
  | repeat (constructor; [present|]); constructor ].

(** X11.  [upload] keeps the store sound on every path: the keys stay unique
    and below the next key, and no Equipment row is left without its
    Dataset, neither by the deletion of the old datasets nor by a failed
    upload. *)
Theorem upload_preserves_soundness :
  forall (now : Z) (request : Request) (db db' : DB) (resp : Response),
    sound db ->
    call (upload now request) db = (resp, db') ->
    sound db'.
Proof.
  intros now request db db' resp Hs Hcall.
  destruct (upload_cases now request db) as (r & db1 & Hup & Hst & Hdb).
  unfold call in Hcall. rewrite Hup in Hcall. injection Hcall as <- <-.
  destruct Hst as [Hst|Hst].
  - destruct (upload_201 now request db db1 r Hup Hst)
      as (csv_file & df & s & eqs & _ & _ & _ & _ & Heqs & _ & ->).
    apply sound_pruned. rewrite written_created by apply Hs.
    apply sound_stored; [exact Hs | reflexivity|].
    apply (equipment_rows_key _ _ _ _ Heqs).
  - destruct (Hdb Hst) as [->|(csv_file & df & e & _ & _ & _ & ->)];
      [exact Hs|].
    unfold db_created.
    rewrite <- (app_nil_r (equipment_records db)).
    apply sound_stored; [exact Hs | reflexivity | constructor].
Qed.

Lemma upload_preserves_soundness_witness :
  let request := Examples.anonymous (Examples.csv "a.csv" Examples.two_rows) in
  sound (snd (call (upload 20 request) ChemStores.crowded)).
Proof.
  intros request.
  apply (upload_preserves_soundness 20 request ChemStores.crowded
           (snd (call (upload 20 request) ChemStores.crowded))
           (fst (call (upload 20 request) ChemStores.crowded))).
  - concrete_store.
  - vm_compute. reflexivity.
Defined.

(** The newest dataset comes first in [Dataset.objects.all()]. *)
Lemma Dataset_objects_all_stored (db : DB) (d : Dataset)
    (eqs : list Equipment) (n : Z) :
  not_after (uploaded_at d) db ->
  Dataset_objects_all (mkDB (datasets db ++ [d]) eqs n)
  = d :: Dataset_objects_all db.
Proof.
  intros Hb. unfold Dataset_objects_all. cbn [datasets].
  rewrite rev_unit. cbn [order_by_newest fold_right].
  apply insert_newest_head.
  eapply Permutation_Forall;
    [apply Permutation_sym, order_by_newest_perm|].
  eapply Permutation_Forall; [apply Permutation_rev|]. exact Hb.
Qed.



Lemma filter_not_stale (a b : list Dataset) :
  NoDup (map id (a ++ b)) ->
  filter (fun d => negb (stale b d)) (a ++ b) = a.
Proof.
  intros Hnd. rewrite filter_app.
  rewrite (filter_none (fun d => negb (stale b d)) b),
          (filter_id (fun d => negb (stale b d)) a).
  - apply app_nil_r.
  - intros d Hd. apply negb_true_iff, not_true_iff_false. intros H.
    apply stale_In in H. rewrite map_app in Hnd.
    apply (NoDup_app_disjoint _ _ (id d) Hnd); [apply in_map, Hd | exact H].
  - intros d Hd. apply negb_false_iff, stale_In, in_map, Hd.
Qed.

(** With unique keys, the loop over [Dataset.objects.all()[5:]] leaves
    the five newest datasets. *)
Lemma pruned_all (db : DB) :
  NoDup (map id (datasets db)) ->
  Dataset_objects_all (pruned db) = firstn 5 (Dataset_objects_all db).
Proof.
  intros Hnd. unfold pruned. set (S := Dataset_objects_all db).
  set (fresh := fun d => negb (stale (skipn 5 S) d)).
  unfold Dataset_objects_all at 1. cbn [datasets].
  rewrite <- filter_rev, <- filter_order_by_newest.
  fold (Dataset_objects_all db). fold S.
  rewrite <- (firstn_skipn 5 S) at 1.
  apply filter_not_stale. rewrite firstn_skipn.
  eapply Permutation_NoDup;
    [apply Permutation_map, Permutation_sym, Dataset_objects_all_perm|].
  exact Hnd.
Qed.

(** X13.  Retention over all users.  On a sound store that holds no dataset
    newer than the clock, a 201 answer of [upload] leaves the new dataset
    and the four newest of the datasets stored before, in that order; every
    older dataset is gone, with its Equipment rows: [generate_pdf] finds
    nothing under its key. *)
Theorem upload_keeps_the_newest_five :
  forall (now : Z) (request : Request) (db db' : DB) (resp : Response),
    sound db ->
    not_after now db ->
    upload now request db = (Ok resp, db') ->
    status resp = HTTP_201_CREATED ->
    exists d,
      body resp = DatasetData d
      /\ Dataset_objects_all db' = d :: firstn 4 (Dataset_objects_all db)
      /\ list_datasets db'
         = mkResponse HTTP_200_OK
             (DatasetList (d :: firstn 4 (Dataset_objects_all db)))
      /\ forall d0,
           In d0 (skipn 4 (Dataset_objects_all db)) ->
           generate_pdf (id d0) db' = None /\ rows_of d0 db' = [].
Proof.
  intros now request db db' resp Hs Hb Hup Hst.
  destruct (upload_201 now request db db' resp Hup Hst)
    as (csv_file & df & s & eqs & _ & _ & _ & _ & Heqs & -> & ->).
  destruct Hs as (Hnd & Hlt & Href).
  rewrite written_created by exact Hlt.
  set (d := set_summary_data (created now request csv_file df db) s) in *.
  set (db2 := mkDB (datasets db ++ [d]) (equipment_records db ++ eqs)
                   (next_id db + 1)).
  assert (Hall : Dataset_objects_all db2 = d :: Dataset_objects_all db)
    by (apply Dataset_objects_all_stored; exact Hb).
  assert (Hnd2 : NoDup (map id (datasets db2))).
  { apply (sound_stored db d eqs); [repeat split; assumption | reflexivity|].
    apply (equipment_rows_key _ _ _ _ Heqs). }
  assert (Hnew : Dataset_objects_all (pruned db2)
                 = d :: firstn 4 (Dataset_objects_all db)).
  { rewrite pruned_all by exact Hnd2. rewrite Hall. reflexivity. }
  exists d. split; [reflexivity|]. split; [exact Hnew|]. split.
  { unfold list_datasets. rewrite Hnew.
    change (firstn 5 (d :: firstn 4 (Dataset_objects_all db)))
      with (d :: firstn 4 (firstn 4 (Dataset_objects_all db))).
    rewrite (firstn_all2 (firstn 4 (Dataset_objects_all db)))
      by apply firstn_le_length.
    reflexivity. }
  intros d0 Hd0.
  assert (Hold : In (id d0) (map id (skipn 5 (Dataset_objects_all db2)))).
  { rewrite Hall. apply in_map. exact Hd0. }
  split.
  - unfold generate_pdf. rewrite find_absent; [reflexivity|].
    intros x Hx. unfold pruned in Hx. cbn [datasets] in Hx.
    apply filter_In in Hx as [_ Hx].
    apply negb_true_iff, not_true_iff_false in Hx.
    apply Z.eqb_neq. intros E. apply Hx, stale_In. rewrite E. exact Hold.
  - unfold rows_of, pruned. cbn [equipment_records]. rewrite filter_twice.
    apply filter_none. intros e He.
    destruct (orphaned (skipn 5 (Dataset_objects_all db2)) e) eqn:O;
      [reflexivity|].
    cbn [negb andb]. apply Z.eqb_neq. intros E.
    apply not_true_iff_false in O. apply O, orphaned_In.
    rewrite E. exact Hold.
Qed.

Lemma upload_keeps_the_newest_five_witness :
  let request := Examples.anonymous (Examples.csv "a.csv" Examples.two_rows) in
  let run := upload 20 request ChemStores.crowded in
  exists d,
    fst run = Ok (mkResponse HTTP_201_CREATED (DatasetData d))
    /\ Dataset_objects_all (snd run)
       = d :: firstn 4 (Dataset_objects_all ChemStores.crowded)
    /\ list_datasets (snd run)
       = mkResponse HTTP_200_OK
           (DatasetList (d :: firstn 4
                                (Dataset_objects_all ChemStores.crowded)))
    /\ forall d0,
         In d0 (skipn 4 (Dataset_objects_all ChemStores.crowded)) ->
         generate_pdf (id d0) (snd run) = None /\ rows_of d0 (snd run) = [].
Proof.
  intros request run.
  destruct run as [r db'] eqn:E.
  destruct r as [resp|e]; [|vm_compute in E; discriminate].
  assert (Hst : status resp = HTTP_201_CREATED)
    by (vm_compute in E; injection E as <- _; reflexivity).
  destruct (upload_keeps_the_newest_five 20 request ChemStores.crowded db'
              resp)
    as (d & H1 & H2 & H3 & H4);
    [ concrete_store
    | cbn; repeat constructor; cbn; lia
    | exact E
    | exact Hst |].
  exists d. cbn [fst snd].
  assert (Hresp : resp = mkResponse HTTP_201_CREATED (DatasetData d)).
  { destruct resp as [st b]. cbn in Hst, H1. subst. reflexivity. }
  rewrite Hresp. repeat split; try assumption; apply H4; assumption.
Defined.

End UploadMore.

(** ** The two upload views on one file *)

Section TwoViews.
Import EquipmentApi.
Local Open Scope Z_scope.




End TwoViews.

(** ** [register] and [login] *)

Section AccountViews.
Import Accounts.
Local Open Scope Z_scope.

Lemma existsb_absent {A : Type} (f : A -> bool) (l : list A) :
  existsb f l = false <-> Forall (fun x => f x = false) l.
Proof.
  induction l as [|x l IH]; cbn.
  - split; [constructor | reflexivity].
  - rewrite orb_false_iff, IH. split.
    + intros [H1 H2]. constructor; assumption.
    + intros H. inversion H; subst. auto.
Qed.

Lemma find_snoc {A : Type} (f : A -> bool) (l : list A) (x : A) :
  existsb f l = false -> f x = true -> find f (l ++ [x]) = Some x.
Proof.
  induction l as [|y l IH]; cbn; intros Hl Hx.
  - rewrite Hx. reflexivity.
  - apply orb_false_iff in Hl as [Hy Hl]. rewrite Hy. auto.
Qed.

Lemma find_app_found {A : Type} (f : A -> bool) (l l' : list A) (x : A) :
  find f l = Some x -> find f (l ++ l') = Some x.
Proof.
  induction l as [|y l IH]; cbn; [discriminate|].
  destruct (f y); auto.
Qed.

(** The token [get_or_create] answers with is the one a later
    [get_or_create] for the same user finds, whatever key it draws. *)
Lemma get_or_create_again (k k' : string) (u : User) (db db' : DB)
    (t : Token) :
  Token_objects_get_or_create k u db = inr (t, db') ->
  Token_objects_get_or_create k' u db' = inr (t, db')
  /\ users db' = users db /\ next_user_id db' = next_user_id db.
Proof.
  unfold Token_objects_get_or_create.
  destruct (find _ (tokens db)) as [t0|] eqn:F.
  - intros H. injection H as <- <-. rewrite F. auto.
  - destruct (existsb _ (tokens db)); [discriminate|].
    intros H. injection H as <- <-. cbn [tokens users next_user_id].
    rewrite find_snoc; [auto | |cbn; apply Z.eqb_refl].
    apply existsb_absent, Forall_forall. intros x Hx.
    apply (find_none _ _ F x Hx).
Qed.

(** A 201 answer of [register]: the user is appended under the
    normalized name, which nobody had, and the token is hers. *)
Lemma register_201 (nu ne : string -> string) (k : string) (data : Data)
    (db db' : DB) (resp : Response) :
  register nu ne k data db = (Answer resp, db') ->
  status resp = HTTP_201_CREATED ->
  exists n t,
    let u := mkUser (next_user_id db) (nu n)
                    (ne match data_email data with
                        | Some e => e
                        | None => ""%string
                        end)
                    (data_password data) true in
    data_username data = Some n
    /\ n <> ""%string
    /\ existsb (named (nu n)) (users db) = false
    /\ users db' = users db ++ [u]
    /\ next_user_id db' = next_user_id db + 1
    /\ resp = mkResponse HTTP_201_CREATED
                (Authenticated (key t) (UserSerializer u))
    /\ (forall k', Token_objects_get_or_create k' u db' = inr (t, db')).
Proof.
  unfold register, create_user. intros H Hst.
  destruct (data_username data) as [[|c n']|];
    cbn [User_objects_filter_exists] in H.
  - destruct (existsb _ (users db)); [injection H as <- <-|]; discriminate.
  - destruct (existsb (named (String c n')) (users db));
      [injection H as <- <-; discriminate|].
    cbn zeta in H. cbn [username] in H.
    destruct (existsb (named (nu (String c n'))) (users db)) eqn:Hnew;
      [discriminate|].
    match type of H with
    | context [Token_objects_get_or_create k ?u ?d] =>
        destruct (Token_objects_get_or_create k u d) as [e|[t db2]] eqn:G;
          [discriminate|];
        pose proof (fun k' => get_or_create_again k k' u d db2 t G) as Hagain
    end.
    injection H as <- <-.
    exists (String c n'), t. cbn zeta.
    destruct (Hagain k) as (_ & Hu & Hnext). cbn in Hu, Hnext.
    split; [reflexivity|]. split; [discriminate|]. split; [exact Hnew|].
    split; [exact Hu|]. split; [exact Hnext|]. split; [reflexivity|].
    intros k'. apply Hagain.
  - discriminate.
Qed.

(** X15.  A user who registered can log in at once: [login] under the stored
    name with the password of the registration answers 200 with the token
    and the user data [register] answered with, and leaves the store as it
    is; any other password is answered with 401.  The stored name is the
    normalized one. *)
Theorem register_then_login :
  forall (nu ne : string -> string) (k : string) (data : Data)
         (db db' : DB) (resp : Response) (p : string),
    register nu ne k data db = (Answer resp, db') ->
    status resp = HTTP_201_CREATED ->
    data_password data = Some p ->
    exists n token ud,
      data_username data = Some n
      /\ body resp = Authenticated token ud
      /\ ser_username ud = nu n
      /\ (forall k' mail,
            login k' (mkData (Some (nu n)) (Some p) mail) db'
            = (Answer (mkResponse HTTP_200_OK (Authenticated token ud)),
               db'))
      /\ (forall k' mail q, q <> p ->
            login k' (mkData (Some (nu n)) (Some q) mail) db'
            = (Answer (mkResponse HTTP_401_UNAUTHORIZED
                         (Error "Invalid credentials")), db')).
Proof.
  intros nu ne k data db db' resp p Hreg Hst Hp.
  destruct (register_201 nu ne k data db db' resp Hreg Hst)
    as (n & t & Hn & _ & Hnew & Husers & _ & -> & Htoken).
  cbn zeta in *.
  set (u := mkUser (next_user_id db) (nu n) _ (data_password data) true)
    in *.
  assert (Hfind : find (named (nu n)) (users db') = Some u).
  { rewrite Husers. apply find_snoc; [exact Hnew|].
    unfold named. cbn. apply String.eqb_refl. }
  exists n, (key t), (UserSerializer u).
  split; [exact Hn|]. split; [reflexivity|]. split; [reflexivity|]. split.
  - intros k' mail. unfold login, authenticate.
    cbn [data_username data_password]. rewrite Hfind.
    unfold check_password. cbn [password is_active u]. rewrite Hp.
    rewrite String.eqb_refl. cbn [andb]. rewrite Htoken. reflexivity.
  - intros k' mail q Hq. unfold login, authenticate.
    cbn [data_username data_password]. rewrite Hfind.
    unfold check_password. cbn [password is_active u]. rewrite Hp.
    apply String.eqb_neq in Hq. rewrite Hq. reflexivity.
Qed.

Lemma register_then_login_witness :
  let data := mkData (Some "ann"%string) (Some "pw"%string) None in
  let run := register nfkc (fun s => s) "c0ffee" data one_user in
  exists n token ud,
    data_username data = Some n
    /\ body (mkResponse HTTP_201_CREATED
               (Authenticated "c0ffee" (mkUserData 2 "ann" "")))
       = Authenticated token ud
    /\ ser_username ud = nfkc n
    /\ (forall k' mail,
          login k' (mkData (Some (nfkc n)) (Some "pw"%string) mail)
                (store_of run)
          = (Answer (mkResponse HTTP_200_OK (Authenticated token ud)),
             store_of run))
    /\ (forall k' mail q, q <> "pw"%string ->
          login k' (mkData (Some (nfkc n)) (Some q) mail) (store_of run)
          = (Answer (mkResponse HTTP_401_UNAUTHORIZED
                       (Error "Invalid credentials")), store_of run)).
Proof.
  intros data run.
  apply (register_then_login nfkc (fun s => s) "c0ffee" data one_user
           (store_of run)
           (mkResponse HTTP_201_CREATED
              (Authenticated "c0ffee" (mkUserData 2 "ann" "")))
           "pw");
    reflexivity.
Defined.

(** X16.  A user registered without a password cannot log in: the password is
    unusable, and [login] under her name answers 401 whatever password is
    sent. *)
Theorem register_without_password_locks_out :
  forall (nu ne : string -> string) (k : string) (data : Data)
         (db db' : DB) (resp : Response),
    register nu ne k data db = (Answer resp, db') ->
    status resp = HTTP_201_CREATED ->
    data_password data = None ->
    exists n,
      data_username data = Some n
      /\ forall k' mail pass,
           login k' (mkData (Some (nu n)) pass mail) db'
           = (Answer (mkResponse HTTP_401_UNAUTHORIZED
                        (Error "Invalid credentials")), db').
Proof.
  intros nu ne k data db db' resp Hreg Hst Hp.
  destruct (register_201 nu ne k data db db' resp Hreg Hst)
    as (n & t & Hn & _ & Hnew & Husers & _ & _ & _).
  cbn zeta in *.
  set (u := mkUser (next_user_id db) (nu n) _ (data_password data) true)
    in *.
  assert (Hfind : find (named (nu n)) (users db') = Some u).
  { rewrite Husers. apply find_snoc; [exact Hnew|].
    unfold named. cbn. apply String.eqb_refl. }
  exists n. split; [exact Hn|]. intros k' mail [q|].
  - unfold login, authenticate. cbn [data_username data_password].
    rewrite Hfind. unfold check_password. cbn [password u]. rewrite Hp.
    reflexivity.
  - reflexivity.
Qed.

Lemma register_without_password_locks_out_witness :
  let data := mkData (Some "ann"%string) None None in
  let run := register nfkc (fun s => s) "c0ffee" data one_user in
  exists n,
    data_username data = Some n
    /\ forall k' mail pass,
         login k' (mkData (Some (nfkc n)) pass mail) (store_of run)
         = (Answer (mkResponse HTTP_401_UNAUTHORIZED
                      (Error "Invalid credentials")), store_of run).
Proof.
  intros data run.
  apply (register_without_password_locks_out nfkc (fun s => s) "c0ffee" data
           one_user (store_of run)
           (mkResponse HTTP_201_CREATED
              (Authenticated "c0ffee" (mkUserData 2 "ann" ""))));
    reflexivity.
Defined.

(** X17.  [register] has no handler for the exceptions of [create_user].
    Without a user name (the key absent, or the empty string) it lets the
    ValueError of [create_user] out; with a name that is new as sent but
    whose normalized form is taken, the test [filter(username=...).exists()]
    passes and the IntegrityError of the insertion gets out.  The store is
    left as it was in both cases. *)
Theorem register_uncaught_exceptions :
  forall (nu ne : string -> string) (k : string) (data : Data) (db : DB),
    Forall (fun u => username u <> ""%string) (users db) ->
    (data_username data = None \/ data_username data = Some ""%string ->
     register nu ne k data db
     = (Uncaught (ValueError "The given username must be set"), db))
    /\ (forall n u0,
          data_username data = Some n ->
          n <> ""%string ->
          Forall (fun u => username u <> n) (users db) ->
          In u0 (users db) -> username u0 = nu n ->
          register nu ne k data db
          = (Uncaught (IntegrityError
                         "UNIQUE constraint failed: auth_user.username"),
             db)).
Proof.
  intros nu ne k data db Hnames.
  assert (Hfree : forall n, Forall (fun u => username u <> n) (users db) ->
                            existsb (named n) (users db) = false).
  { intros n H. apply existsb_absent.
    eapply Forall_impl; [|exact H]. cbn. intros u Hu.
    apply String.eqb_neq, Hu. }
  split.
  - intros [Hn|Hn]; unfold register; rewrite Hn; [reflexivity|].
    cbn [User_objects_filter_exists]. rewrite (Hfree _ Hnames).
    reflexivity.
  - intros n u0 Hn Hne Hnew Hin Hclash. unfold register. rewrite Hn.
    cbn [User_objects_filter_exists]. rewrite (Hfree _ Hnew).
    unfold create_user. destruct n as [|c n']; [congruence|].
    cbn [username].
    replace (existsb (named (nu (String c n'))) (users db)) with true;
      [reflexivity|].
    symmetry. apply existsb_exists. exists u0. split; [exact Hin|].
    apply String.eqb_eq, Hclash.
Qed.

Lemma register_uncaught_exceptions_witness :
  register nfkc (fun s => s) "c0ffee"
           (mkData None (Some "pw"%string) None) one_user
  = (Uncaught (ValueError "The given username must be set"), one_user)
  /\ register nfkc (fun s => s) "c0ffee"
              (mkData (Some (ligature_fi ++ "ona")%string)
                      (Some "pw"%string) None)
              one_user
     = (Uncaught (IntegrityError
                    "UNIQUE constraint failed: auth_user.username"),
        one_user).
Proof.
  assert (Hnames : Forall (fun u => username u <> ""%string)
                          (users one_user))
    by (repeat constructor; discriminate).
  split.
  - apply (proj1 (register_uncaught_exceptions nfkc (fun s => s) "c0ffee"
                    (mkData None (Some "pw"%string) None) one_user Hnames)).
    left. reflexivity.
  - apply (proj2 (register_uncaught_exceptions nfkc (fun s => s) "c0ffee"
                    (mkData (Some (ligature_fi ++ "ona")%string)
                            (Some "pw"%string) None)
                    one_user Hnames)
             (ligature_fi ++ "ona")%string
             (mkUser 1 "fiona" "fiona@example.org" (Some "s3cret"%string)
                     true)).
    + reflexivity.
    + discriminate.
    + repeat constructor. discriminate.
    + left. reflexivity.
    + reflexivity.
Defined.

(** X18.  [register] answers 400 "Username already exists" exactly when the
    name, as it was sent, is the name of a stored user; the store is then
    left as it was. *)
Theorem register_400_iff_name_taken :
  forall (nu ne : string -> string) (k : string) (data : Data) (db : DB),
    (exists u, In u (users db) /\ data_username data = Some (username u))
    <-> register nu ne k data db
        = (Answer (mkResponse HTTP_400_BAD_REQUEST
                     (Error "Username already exists")), db).
Proof.
  intros nu ne k data db. unfold register. split.
  - intros (u & Hin & Hn). rewrite Hn. cbn [User_objects_filter_exists].
    replace (existsb (named (username u)) (users db)) with true;
      [reflexivity|].
    symmetry. apply existsb_exists. exists u. split; [exact Hin|].
    apply String.eqb_refl.
  - destruct (User_objects_filter_exists (data_username data) db) eqn:E.
    + intros _. unfold User_objects_filter_exists in E.
      destruct (data_username data) as [n|]; [|discriminate].
      apply existsb_exists in E as (u & Hin & Hu).
      apply String.eqb_eq in Hu. exists u. rewrite Hu. auto.
    + destruct (create_user _ _ _ _ _ _) as [e|[u db1]]; [discriminate|].
      destruct (Token_objects_get_or_create _ _ _) as [e|[t db2]];
        discriminate.
Qed.

(** X19.  Logging in again changes nothing: after a 200 answer, [login] with
    the same credentials gives the same answer, token included, and leaves
    the store as it is, whatever key would be drawn for a new token. *)
Theorem login_again_same_token :
  forall (k k' : string) (data : Data) (db db' : DB) (resp : Response),
    login k data db = (Answer resp, db') ->
    status resp = HTTP_200_OK ->
    login k' data db' = (Answer resp, db').
Proof.
  unfold login. intros k k' data db db' resp H Hst.
  destruct (authenticate (data_username data) (data_password data) db)
    as [u|] eqn:A; [|injection H as <- <-; discriminate].
  destruct (Token_objects_get_or_create k u db) as [e|[t db1]] eqn:G;
    [discriminate|].
  injection H as <- <-.
  destruct (get_or_create_again k k' u db db1 t G) as (G' & Hu & _).
  replace (authenticate (data_username data) (data_password data) db1)
    with (Some u); [rewrite G'; reflexivity|].
  unfold authenticate in *. rewrite Hu. symmetry. exact A.
Qed.

Lemma login_again_same_token_witness :
  let data := mkData (Some "fiona"%string) (Some "s3cret"%string) None in
  let db := mkDB (users one_user) [] 2 in
  let run := login "c0ffee" data db in
  login "decaf" data (store_of run)
  = (Answer (mkResponse HTTP_200_OK
               (Authenticated "c0ffee"
                  (mkUserData 1 "fiona" "fiona@example.org"))),
     store_of run).
Proof.
  intros data db run.
  apply (login_again_same_token "c0ffee" "decaf" data db (store_of run));
    reflexivity.
Defined.

Lemma NoDup_snoc {A : Type} (l : list A) (x : A) :
  NoDup l -> ~ In x l -> NoDup (l ++ [x]).
Proof.
  intros Hl Hx. apply NoDup_app; auto.
  - repeat constructor. intros [].
  - intros y Hy [<-|[]]. auto.
Qed.

Lemma get_or_create_consistent (k : string) (u : User) (db db' : DB)
    (t : Token) :
  consistent db -> In (user_id u) (map user_id (users db)) ->
  Token_objects_get_or_create k u db = inr (t, db') ->
  consistent db'.
Proof.
  intros (H1 & H2 & H3 & H4 & H5 & H6) Hu.
  unfold Token_objects_get_or_create.
  destruct (find _ (tokens db)) as [t0|] eqn:F.
  - intros H. injection H as <- <-. repeat split; assumption.
  - destruct (existsb _ (tokens db)) eqn:K; [discriminate|].
    intros H. injection H as <- <-.
    unfold consistent. cbn [tokens users next_user_id].
    split; [exact H1|]. split; [exact H2|]. split; [exact H3|].
    rewrite !map_app. cbn [map key token_user].
    split; [|split].
    + apply NoDup_snoc; [exact H4|]. intros Hin.
      apply in_map_iff in Hin as (x & E & Hx).
      rewrite existsb_absent, Forall_forall in K. specialize (K x Hx).
      apply String.eqb_neq in K. auto.
    + apply NoDup_snoc; [exact H5|]. intros Hin.
      apply in_map_iff in Hin as (x & E & Hx).
      apply (find_none _ _ F) in Hx. apply Z.eqb_neq in Hx. auto.
    + apply Forall_app. split; [exact H6|]. repeat constructor. exact Hu.
Qed.

Lemma create_user_consistent (nu ne : string -> string)
    (name : option string) (mail : string) (pass : option string)
    (db db' : DB) (u : User) :
  consistent db ->
  create_user nu ne name mail pass db = inr (u, db') ->
  consistent db' /\ In (user_id u) (map user_id (users db')).
Proof.
  intros (H1 & H2 & H3 & H4 & H5 & H6). unfold create_user.
  destruct name as [[|c n']|]; [discriminate | | discriminate].
  cbn zeta. cbn [username].
  destruct (existsb _ (users db)) eqn:Hnew; [discriminate|].
  intros H. injection H as <- <-. unfold consistent.
  cbn [users tokens next_user_id].
  rewrite !map_app. cbn [map username user_id]. split.
  - split; [|split; [|split; [|split; [exact H4 | split; [exact H5|]]]]].
    + apply NoDup_snoc; [exact H1|]. intros Hin.
      apply in_map_iff in Hin as (x & E & Hx).
      rewrite existsb_absent, Forall_forall in Hnew. specialize (Hnew x Hx).
      apply String.eqb_neq in Hnew. auto.
    + apply NoDup_snoc; [exact H2|]. intros Hin.
      apply in_map_iff in Hin as (x & E & Hx).
      rewrite Forall_forall in H3. specialize (H3 x Hx). lia.
    + apply Forall_app. split.
      * eapply Forall_impl; [|exact H3]. cbn. intros; lia.
      * repeat constructor. cbn. lia.
    + eapply Forall_impl; [|exact H6]. cbn. intros x Hx.
      apply in_or_app. auto.
  - apply in_or_app. right. left. reflexivity.
Qed.

(** X20.  [register] and [login] keep the constraints of the tables, whatever
    they answer and also when an exception gets out: names and keys stay
    unique, nobody gets a second token and no token is left without its
    user. *)
Theorem views_keep_the_tables_consistent :
  forall (nu ne : string -> string) (k : string) (data : Data) (db : DB),
    consistent db ->
    consistent (store_of (register nu ne k data db))
    /\ consistent (store_of (login k data db)).
Proof.
  intros nu ne k data db Hc. unfold store_of. split.
  - unfold register.
    destruct (User_objects_filter_exists _ _); [exact Hc|].
    destruct (create_user _ _ _ _ _ _) as [e|[u db1]] eqn:C; [exact Hc|].
    destruct (create_user_consistent _ _ _ _ _ _ _ _ Hc C) as [Hc1 Hu].
    destruct (Token_objects_get_or_create k u db1) as [e|[t db2]] eqn:G;
      [exact Hc1|].
    apply (get_or_create_consistent k u db1 db2 t Hc1 Hu G).
  - unfold login.
    destruct (authenticate _ _ _) as [u|] eqn:A; [|exact Hc].
    destruct (Token_objects_get_or_create k u db) as [e|[t db1]] eqn:G;
      [exact Hc|].
    apply (get_or_create_consistent k u db db1 t Hc); [|exact G].
    unfold authenticate in A.
    destruct (data_username data) as [n|]; [|discriminate].
    destruct (data_password data) as [p|]; [|discriminate].
    destruct (find (named n) (users db)) as [u'|] eqn:F; [|discriminate].
    destruct (check_password p u' && is_active u'); [|discriminate].
    injection A as <-. apply find_some in F as [Hin _].
    apply in_map, Hin.
Qed.

Lemma views_keep_the_tables_consistent_witness :
  let data := mkData (Some "ann"%string) (Some "pw"%string) None in
  consistent (store_of (register nfkc (fun s => s) "c0ffee" data one_user))
  /\ consistent (store_of (login "c0ffee" data one_user)).
Proof.
  intros data.
  apply (views_keep_the_tables_consistent nfkc (fun s => s) "c0ffee" data
           one_user).
  unfold consistent. cbn.
  repeat split; repeat constructor; cbn; try lia; auto; intros [].
Defined.

End AccountViews.

(** ** [MainWindow.browse_file] *)

Section BrowseFile.
Import Desktop.
Local Open Scope string_scope.

Lemma split_nonempty (sep : ascii) (s : string) : split sep s <> [].
Proof.
  destruct s as [|c s]; cbn; [discriminate|].
  destruct (Ascii.eqb c sep); [discriminate|].
  destruct (split sep s); discriminate.
Qed.

(** [sep.join(s.split(sep)) == s] *)
Lemma split_join (sep : ascii) (s : string) :
  String.concat (String sep "") (split sep s) = s.
Proof.
  induction s as [|c s IH]; cbn [split]; [reflexivity|].
  destruct (Ascii.eqb c sep) eqn:E.
  - apply Ascii.eqb_eq in E. subst c.
    pose proof (split_nonempty sep s) as Hne.
    destruct (split sep s) as [|w ws]; [congruence|].
    change (String.concat (String sep "") ("" :: w :: ws))
      with ("" ++ String sep "" ++ String.concat (String sep "") (w :: ws)).
    rewrite IH. reflexivity.
  - pose proof (split_nonempty sep s) as Hne.
    destruct (split sep s) as [|w ws]; [congruence|].
    rewrite <- IH. destruct ws; reflexivity.
Qed.

(** No piece of [s.split(sep)] holds the separator. *)
Lemma split_pieces (sep : ascii) (s : string) :
  Forall (fun w => occurs sep w = false) (split sep s).
Proof.
  induction s as [|c s IH]; cbn [split]; [repeat constructor|].
  destruct (Ascii.eqb c sep) eqn:E.
  - constructor; [reflexivity | exact IH].
  - destruct (split sep s) as [|w ws]; [repeat constructor; cbn; rewrite E;
                                        reflexivity|].
    inversion IH as [|? ? Hw Hws]; subst.
    constructor; [|exact Hws]. cbn. rewrite E. exact Hw.
Qed.

Lemma append_assoc (a b c : string) : (a ++ b) ++ c = a ++ b ++ c.
Proof.
  induction a as [|x a IH]; cbn; [reflexivity|]. rewrite IH. reflexivity.
Qed.

(** A joined list is its last piece, or something, the separator and the
    last piece. *)
Lemma concat_last (sep : string) (l : list string) :
  l <> [] ->
  String.concat sep l = last l ""
  \/ exists dir, String.concat sep l = dir ++ sep ++ last l "".
Proof.
  induction l as [|w l IH]; [congruence|]. intros _.
  destruct l as [|w' l]; [left; reflexivity|].
  right. destruct IH as [IH|[dir IH]]; [discriminate | |].
  - exists w. change (String.concat sep (w :: w' :: l))
      with (w ++ sep ++ String.concat sep (w' :: l)).
    rewrite IH. reflexivity.
  - exists (w ++ sep ++ dir).
    change (String.concat sep (w :: w' :: l))
      with (w ++ sep ++ String.concat sep (w' :: l)).
    rewrite IH.
    change (last (w :: w' :: l) "") with (last (w' :: l) "").
    rewrite !append_assoc. reflexivity.
Qed.

Lemma last_In {A : Type} (l : list A) (d : A) : l <> [] -> In (last l d) l.
Proof.
  induction l as [|x l IH]; [congruence|]. intros _.
  destruct l as [|y l]; [left; reflexivity|].
  right. apply IH. discriminate.
Qed.

(** X21.  [browse_file] leaves the window alone when the dialog is cancelled.
    Otherwise it keeps the whole path for the upload, enables the upload
    button and labels the file with the part of the path after its last
    slash: the label holds no slash, and the path is the label or a
    directory, a slash and the label. *)
Theorem browse_file_labels_with_base_name :
  forall (filename : string) (w : MainWindow),
    browse_file "" w = w
    /\ (filename <> "" ->
        let w' := browse_file filename w in
        selected_file w' = Some filename
        /\ upload_btn_enabled w' = true
        /\ occurs "/" (file_label w') = false
        /\ (filename = file_label w'
            \/ exists dir, filename = dir ++ "/" ++ file_label w')).
Proof.
  intros filename w. split; [reflexivity|]. intros Hne.
  destruct filename as [|c s]; [congruence|].
  cbn [browse_file selected_file upload_btn_enabled file_label].
  set (f := String c s).
  split; [reflexivity|]. split; [reflexivity|]. split.
  - pose proof (split_pieces "/" f) as Hp. rewrite Forall_forall in Hp.
    apply Hp, last_In, split_nonempty.
  - destruct (concat_last "/" (split "/" f) (split_nonempty "/" f))
      as [H|[dir H]]; rewrite split_join in H; eauto.
Qed.

Lemma browse_file_labels_with_base_name_witness :
  let w' := browse_file "/home/ann/plant data.csv" init_ui in
  selected_file w' = Some "/home/ann/plant data.csv"
  /\ upload_btn_enabled w' = true
  /\ occurs "/" (file_label w') = false
  /\ ("/home/ann/plant data.csv" = file_label w'
      \/ exists dir, "/home/ann/plant data.csv" = dir ++ "/" ++ file_label w').
Proof.
  apply (proj2 (browse_file_labels_with_base_name
                  "/home/ann/plant data.csv" init_ui)).
  discriminate.
Defined.

End BrowseFile.
